(** * tweet_parser: the [Tweet] class of [tweet_parser/tweet.py]

    A shallow embedding of the [Tweet] class (a [dict] subclass whose
    accessors are memoised properties) and of the Python built-ins it
    calls, followed by the properties of the class that the written
    specification states. *)

From Stdlib Require Import ZArith String Ascii List Bool Lia.
From stdpp Require Import base option gmap strings.

Set Warnings "-register-all".
Local Open Scope string_scope.
Local Open Scope Z_scope.

(** ** Python values *)

(** A decoded JSON payload: [None], booleans, integers, floats (a binary
    mantissa and exponent), strings, lists and string-keyed dicts. *)
Inductive value : Type :=
| VNone
| VBool (b : bool)
| VInt (n : Z)
| VFloat (m e : Z)
| VStr (s : string)
| VList (l : list value)
| VDict (d : gmap string value).

Abbreviation dict := (gmap string value).

(** [datetime.datetime], naive, to the second. *)
Record datetime : Type := mkDatetime {
  year : Z; month : Z; day : Z; hour : Z; minute : Z; second : Z
}.

(** What a property of a [Tweet] can return and what the instance can
    hold as an attribute: a payload value, a [datetime], or another
    [Tweet].  A [Tweet] is a dict (its [entries]) with instance
    attributes: [original_format], unset until [__init__] assigns it, and
    the memoised property values ([lazy]). *)
Inductive pyobj : Type :=
| OVal (v : value)
| ODatetime (d : datetime)
| OTweet (t : Tweet)
with Tweet : Type :=
| mkTweet (fmt : option bool) (items : gmap string value)
          (attrs : gmap string pyobj).

Definition original_format (self : Tweet) : option bool :=
  match self with mkTweet f _ _ => f end.
Definition entries (self : Tweet) : dict :=
  match self with mkTweet _ d _ => d end.
Definition lazy (self : Tweet) : gmap string pyobj :=
  match self with mkTweet _ _ c => c end.

(** ** Exceptions and results *)

Inductive exn : Type :=
| NotATweetError (msg : string)
| NotAvailableError (msg : string)
| KeyError (key : string)
| AttributeError (msg : string)
| TypeError (msg : string)
| ValueError (msg : string)
| IndexError (msg : string).

Inductive result (A : Type) : Type :=
| Ok (a : A)
| Err (e : exn).
Arguments Ok {A} a.
Arguments Err {A} e.

#[global] Instance result_ret : MRet result := fun A a => Ok a.
#[global] Instance result_bind : MBind result := fun A B k r =>
  match r with Ok a => k a | Err e => Err e end.

(** A method body: it reads and updates [self] and returns or raises. *)
Definition M (A : Type) : Type := Tweet -> result A * Tweet.

#[global] Instance M_ret : MRet M := fun A a self => (Ok a, self).
#[global] Instance M_bind : MBind M := fun A B k m self =>
  match m self with
  | (Ok a, self') => k a self'
  | (Err e, self') => (Err e, self')
  end.

Definition lift {A} (r : result A) : M A := fun self => (r, self).

(** ** Built-ins *)

(** [d[key]] on a dict. *)
Definition dict_getitem (d : dict) (key : string) : result value :=
  match d !! key with
  | Some v => Ok v
  | None => Err (KeyError key)
  end.

(** [self[key]]. *)
Definition getitem (key : string) : M value :=
  fun self => (dict_getitem (entries self) key, self).

(** [self.original_format]: an [AttributeError] while the attribute is
    unset. *)
Definition read_original_format (f : option bool) : result bool :=
  match f with
  | Some b => Ok b
  | None => Err (AttributeError "'Tweet' object has no attribute 'original_format'")
  end.

Definition get_original_format : M bool :=
  fun self => (read_original_format (original_format self), self).

(** [self.original_format = b]. *)
Definition set_original_format (b : bool) : M unit :=
  fun self => (Ok tt, mkTweet (Some b) (entries self) (lazy self)).

(** [self.update(other)]: every key of [other] is set in [self]. *)
Definition dict_update (other : dict) : M unit :=
  fun self =>
    (Ok tt, mkTweet (original_format self) (other ∪ entries self) (lazy self)).

(** [s.split(sep)] for a one-character separator: never an empty list. *)
Fixpoint str_split (sep : ascii) (s : string) : list string :=
  match s with
  | EmptyString => [EmptyString]
  | String c rest =>
      if Ascii.eqb c sep then EmptyString :: str_split sep rest
      else match str_split sep rest with
           | [] => [String c EmptyString]
           | h :: t => String c h :: t
           end
  end.

(** [l[-1]]. *)
Definition index_last {A} (l : list A) : result A :=
  match List.rev l with
  | x :: _ => Ok x
  | [] => Err (IndexError "list index out of range")
  end.

(** [v.split(":")]: only [str] has the method among payload values. *)
Definition value_split (v : value) (sep : ascii) : result (list string) :=
  match v with
  | VStr s => Ok (str_split sep s)
  | _ => Err (AttributeError "object has no attribute 'split'")
  end.

(** [x == "retweet"] and the like: a non-string is never equal to a
    string. *)
Definition eq_str (x : pyobj) (s : string) : bool :=
  match x with
  | OVal (VStr s') => String.eqb s' s
  | _ => false
  end.

(** Days since 1970-01-01 to the proleptic Gregorian (year, month, day). *)
Definition civil_from_days (days : Z) : Z * Z * Z :=
  let z := days + 719468 in
  let era := z / 146097 in
  let doe := z - era * 146097 in
  let yoe := (doe - doe / 1460 + doe / 36524 - doe / 146096) / 365 in
  let doy := doe - (365 * yoe + yoe / 4 - yoe / 100) in
  let mp := (5 * doy + 2) / 153 in
  let d := doy - (153 * mp + 2) / 5 + 1 in
  let m := if mp <? 10 then mp + 3 else mp - 9 in
  let y := yoe + era * 400 + (if m <=? 2 then 1 else 0) in
  (y, m, d).

(** [datetime.datetime.utcfromtimestamp(t)] for an integer [t]; years
    outside 1..9999 are refused. *)
Definition utcfromtimestamp (t : Z) : result datetime :=
  let '(y, m, d) := civil_from_days (t / 86400) in
  let s := t mod 86400 in
  if (1 <=? y) && (y <=? 9999)
  then Ok (mkDatetime y m d (s / 3600) (s mod 3600 / 60) (s mod 60))
  else Err (ValueError "year is out of range").

Definition digit (n : Z) : ascii :=
  ascii_of_nat (48 + Z.to_nat (n mod 10)).

(** Two digits, zero padded. *)
Definition pad2 (n : Z) : string :=
  String (digit (n / 10)) (String (digit n) EmptyString).

(** Decimal digits of a number below 10^(fuel), no padding. *)
Fixpoint decimal (fuel : nat) (n : Z) (acc : string) : string :=
  match fuel with
  | O => acc
  | S fuel' =>
      let acc' := String (digit n) acc in
      if n <? 10 then acc' else decimal fuel' (n / 10) acc'
  end.

(** One [strftime] directive: the year without padding (as the C
    library that CPython calls prints it), the other fields on two
    digits; an unknown directive is copied. *)
Definition directive (d : datetime) (c : ascii) : string :=
  if Ascii.eqb c "Y" then decimal 4 (year d) ""
  else if Ascii.eqb c "m" then pad2 (month d)
  else if Ascii.eqb c "d" then pad2 (day d)
  else if Ascii.eqb c "H" then pad2 (hour d)
  else if Ascii.eqb c "M" then pad2 (minute d)
  else if Ascii.eqb c "S" then pad2 (second d)
  else if Ascii.eqb c "%" then "%"
  else String "%" (String c EmptyString).

(** [d.strftime(format)]. *)
Fixpoint strftime (d : datetime) (format : string) : string :=
  match format with
  | EmptyString => EmptyString
  | String c rest =>
      if Ascii.eqb c "%" then
        match rest with
        | String c' rest' => directive d c' ++ strftime d rest'
        | EmptyString => "%"
        end
      else String c (strftime d rest)
  end.

(** ** The modules [tweet.py] imports

    [tweet.py] calls [tweet_checking], [tweet_date], the
    [getter_methods] package and [lazy_property].  The class is
    translated against their interface: a getter receives the tweet and
    reads its format flag and its entries. *)

Definition getter (A : Type) : Type := option bool -> dict -> result A.

Class Collaborators : Type := {
  (* tweet_checking *)
  check_tweet : dict -> bool -> result bool;
  (* getter_methods.tweet_date *)
  snowflake2utc : pyobj -> result Z;
  (* getter_methods.tweet_user *)
  get_user_id : getter pyobj;
  get_screen_name : getter pyobj;
  get_name : getter pyobj;
  get_klout_score : getter pyobj;
  get_klout_profile : getter pyobj;
  get_klout_id : getter pyobj;
  get_klout_topics : string -> getter pyobj;
  (* getter_methods.tweet_text *)
  get_text : getter pyobj;
  get_tweet_type : getter pyobj;
  get_full_text : getter pyobj;
  get_poll_options : getter pyobj;
  get_quote_or_rt_text : getter pyobj;
  get_all_text : getter pyobj;
  (* getter_methods.tweet_geo *)
  get_geo_coordinates : getter pyobj;
  get_profile_location : getter pyobj;
  (* getter_methods.tweet_links *)
  get_tweet_links : getter pyobj;
  get_most_unrolled_urls : getter pyobj;
  (* getter_methods.tweet_entities *)
  get_user_mentions : getter pyobj;
  get_quoted_user : getter pyobj;
  get_quoted_mentions : getter pyobj;
  get_hashtags : getter pyobj;
  (* getter_methods.tweet_embeds: the nested payload, or None *)
  get_quote_tweet : getter (option dict);
  get_retweet : getter (option dict);
  get_embedded_tweet : getter (option dict);
  (* the built-in rendering of a dict by str.format *)
  dict_str : dict -> string
}.

(** [helper(self)]. *)
Definition call {A} (g : getter A) : M A :=
  fun self => (g (original_format self) (entries self), self).

(** Modelled from the spec: [lazy_property], the decorator of every
    accessor, is not in the sources.  The cache maps the accessor's name
    to its value; the first read computes and stores it, later reads
    return what is stored; a read that raises stores nothing. *)
Definition lazy_property (name : string) (fn : M pyobj) : M pyobj :=
  fun self =>
    match lazy self !! name with
    | Some v => (Ok v, self)
    | None =>
        match fn self with
        | (Ok v, self') =>
            (Ok v, mkTweet (original_format self') (entries self')
                           (<[name := v]> (lazy self')))
        | (Err e, self') => (Err e, self')
        end
    end.

(** ** The class [Tweet] *)

Section TweetClass.
Context `{!Collaborators}.

(** [Tweet.__init__(self, tweet_dict, do_format_validation)]. *)
Definition Tweet___init__ (tweet_dict : dict) (do_format_validation : bool)
  : M unit :=
  fmt ← lift (check_tweet tweet_dict do_format_validation);
  set_original_format fmt;;
  dict_update tweet_dict.

(** The instance [__init__] receives: an empty dict without attributes. *)
Definition blank : Tweet := mkTweet None ∅ ∅.

(** [Tweet(tweet_dict, do_format_validation)]: the instance when
    [__init__] returns, its exception otherwise. *)
Definition Tweet_new (tweet_dict : dict) (do_format_validation : bool)
  : result Tweet :=
  match Tweet___init__ tweet_dict do_format_validation blank with
  | (Ok _, self) => Ok self
  | (Err e, _) => Err e
  end.

Definition Tweet_id : M pyobj :=
  lazy_property "id"
    (fmt ← get_original_format;
     if fmt : bool then
       v ← getitem "id_str"; mret (OVal v)
     else
       v ← getitem "id";
       parts ← lift (value_split v ":");
       s ← lift (index_last parts);
       mret (OVal (VStr s))).

Definition Tweet_created_at_seconds : M pyobj :=
  lazy_property "created_at_seconds"
    (i ← Tweet_id;
     s ← lift (snowflake2utc i);
     mret (OVal (VInt s))).

(** [utcfromtimestamp] applied to what a property returned. *)
Definition utcfromtimestamp_obj (x : pyobj) : result pyobj :=
  match x with
  | OVal (VInt t) => d ← utcfromtimestamp t; mret (ODatetime d)
  | _ => Err (TypeError "an integer is required")
  end.

Definition Tweet_created_at_datetime : M pyobj :=
  lazy_property "created_at_datetime"
    (s ← Tweet_created_at_seconds;
     lift (utcfromtimestamp_obj s)).

(** [x.strftime(format)] applied to what a property returned. *)
Definition strftime_obj (x : pyobj) (format : string) : result pyobj :=
  match x with
  | ODatetime d => Ok (OVal (VStr (strftime d format)))
  | _ => Err (AttributeError "object has no attribute 'strftime'")
  end.

Definition Tweet_created_at_string : M pyobj :=
  lazy_property "created_at_string"
    (d ← Tweet_created_at_datetime;
     lift (strftime_obj d "%Y-%M-%dT%H:%M:%S.000Z")).

Definition Tweet_user_id : M pyobj :=
  lazy_property "user_id" (call get_user_id).
Definition Tweet_screen_name : M pyobj :=
  lazy_property "screen_name" (call get_screen_name).
Definition Tweet_name : M pyobj :=
  lazy_property "name" (call get_name).
Definition Tweet_klout_score : M pyobj :=
  lazy_property "klout_score" (call get_klout_score).
Definition Tweet_klout_profile : M pyobj :=
  lazy_property "klout_profile" (call get_klout_profile).
Definition Tweet_klout_id : M pyobj :=
  lazy_property "klout_id" (call get_klout_id).
Definition Tweet_klout_influence_topics : M pyobj :=
  lazy_property "klout_influence_topics" (call (get_klout_topics "influence")).
Definition Tweet_klout_interest_topics : M pyobj :=
  lazy_property "klout_interest_topics" (call (get_klout_topics "interest")).
Definition Tweet_text : M pyobj :=
  lazy_property "text" (call get_text).
Definition Tweet_tweet_type : M pyobj :=
  lazy_property "tweet_type" (call get_tweet_type).

Definition Tweet_user_entered_text : M pyobj :=
  lazy_property "user_entered_text"
    (ty ← Tweet_tweet_type;
     if eq_str ty "retweet" then mret (OVal (VStr ""))
     else call get_full_text).

Definition Tweet_poll_options : M pyobj :=
  lazy_property "poll_options" (call get_poll_options).
Definition Tweet_quote_or_rt_text : M pyobj :=
  lazy_property "quote_or_rt_text" (call get_quote_or_rt_text).
Definition Tweet_all_text : M pyobj :=
  lazy_property "all_text" (call get_all_text).
Definition Tweet_geo_coordinates : M pyobj :=
  lazy_property "geo_coordinates" (call get_geo_coordinates).
Definition Tweet_profile_location : M pyobj :=
  lazy_property "profile_location" (call get_profile_location).
Definition Tweet_tweet_links : M pyobj :=
  lazy_property "tweet_links" (call get_tweet_links).
Definition Tweet_most_unrolled_urls : M pyobj :=
  lazy_property "most_unrolled_urls" (call get_most_unrolled_urls).
Definition Tweet_user_mentions : M pyobj :=
  lazy_property "user_mentions" (call get_user_mentions).
Definition Tweet_quoted_user : M pyobj :=
  lazy_property "quoted_user" (call get_quoted_user).
Definition Tweet_quoted_mentions : M pyobj :=
  lazy_property "quoted_mentions" (call get_quoted_mentions).
Definition Tweet_hashtags : M pyobj :=
  lazy_property "hashtags" (call get_hashtags).

(** [try: return Tweet(payload)] with the handler
    [except NotATweetError as nate: raise NotATweetError(message(nate))];
    any other exception passes.  The constructor is called with its
    default [do_format_validation=False]. *)
Definition try_Tweet (payload : dict) (message : string -> string)
  : result pyobj :=
  match Tweet_new payload false with
  | Ok t => Ok (OTweet t)
  | Err (NotATweetError nate) => Err (NotATweetError (message nate))
  | Err e => Err e
  end.

Definition Tweet_quote_tweet : M pyobj :=
  lazy_property "quote_tweet"
    (quote_tweet ← call get_quote_tweet;
     match quote_tweet with
     | Some payload =>
         lift (try_Tweet payload (fun nate =>
           "The quote-tweet payload appears malformed. Failed with '"
             ++ nate ++ "'"))
     | None => mret (OVal VNone)
     end).

Definition Tweet_retweet : M pyobj :=
  lazy_property "retweet"
    (retweet ← call get_retweet;
     match retweet with
     | Some payload =>
         lift (try_Tweet payload (fun nate =>
           "The retweet payload appears malformed. Failed with '"
             ++ nate ++ "'"))
     | None => mret (OVal VNone)
     end).

Definition Tweet_embedded_tweet : M pyobj :=
  lazy_property "embedded_tweet"
    (embedded_tweet ← call get_embedded_tweet;
     match embedded_tweet with
     | Some payload =>
         lift (try_Tweet payload (fun nate =>
           "The embedded tweet payload " ++ dict_str payload
             ++ " appears malformed. " ++ String "010" "Failed with '"
             ++ nate ++ "'"))
     | None => mret (OVal VNone)
     end).

End TweetClass.

(** ** The accessors as a family *)

Inductive accessor : Type :=
| P_id | P_created_at_seconds | P_created_at_datetime | P_created_at_string
| P_user_id | P_screen_name | P_name
| P_klout_score | P_klout_profile | P_klout_id
| P_klout_influence_topics | P_klout_interest_topics
| P_text | P_tweet_type | P_user_entered_text | P_poll_options
| P_quote_or_rt_text | P_all_text
| P_geo_coordinates | P_profile_location
| P_tweet_links | P_most_unrolled_urls
| P_user_mentions | P_quoted_user | P_quoted_mentions | P_hashtags
| P_quote_tweet | P_retweet | P_embedded_tweet.

(** The name under which [lazy_property] stores an accessor's value. *)
Definition attr_name (a : accessor) : string :=
  match a with
  | P_id => "id"
  | P_created_at_seconds => "created_at_seconds"
  | P_created_at_datetime => "created_at_datetime"
  | P_created_at_string => "created_at_string"
  | P_user_id => "user_id"
  | P_screen_name => "screen_name"
  | P_name => "name"
  | P_klout_score => "klout_score"
  | P_klout_profile => "klout_profile"
  | P_klout_id => "klout_id"
  | P_klout_influence_topics => "klout_influence_topics"
  | P_klout_interest_topics => "klout_interest_topics"
  | P_text => "text"
  | P_tweet_type => "tweet_type"
  | P_user_entered_text => "user_entered_text"
  | P_poll_options => "poll_options"
  | P_quote_or_rt_text => "quote_or_rt_text"
  | P_all_text => "all_text"
  | P_geo_coordinates => "geo_coordinates"
  | P_profile_location => "profile_location"
  | P_tweet_links => "tweet_links"
  | P_most_unrolled_urls => "most_unrolled_urls"
  | P_user_mentions => "user_mentions"
  | P_quoted_user => "quoted_user"
  | P_quoted_mentions => "quoted_mentions"
  | P_hashtags => "hashtags"
  | P_quote_tweet => "quote_tweet"
  | P_retweet => "retweet"
  | P_embedded_tweet => "embedded_tweet"
  end.

Section Accessors.
Context `{!Collaborators}.

(** [self.<a>]: reading property [a] of [self]. *)
Definition read (a : accessor) : M pyobj :=
  match a with
  | P_id => Tweet_id
  | P_created_at_seconds => Tweet_created_at_seconds
  | P_created_at_datetime => Tweet_created_at_datetime
  | P_created_at_string => Tweet_created_at_string
  | P_user_id => Tweet_user_id
  | P_screen_name => Tweet_screen_name
  | P_name => Tweet_name
  | P_klout_score => Tweet_klout_score
  | P_klout_profile => Tweet_klout_profile
  | P_klout_id => Tweet_klout_id
  | P_klout_influence_topics => Tweet_klout_influence_topics
  | P_klout_interest_topics => Tweet_klout_interest_topics
  | P_text => Tweet_text
  | P_tweet_type => Tweet_tweet_type
  | P_user_entered_text => Tweet_user_entered_text
  | P_poll_options => Tweet_poll_options
  | P_quote_or_rt_text => Tweet_quote_or_rt_text
  | P_all_text => Tweet_all_text
  | P_geo_coordinates => Tweet_geo_coordinates
  | P_profile_location => Tweet_profile_location
  | P_tweet_links => Tweet_tweet_links
  | P_most_unrolled_urls => Tweet_most_unrolled_urls
  | P_user_mentions => Tweet_user_mentions
  | P_quoted_user => Tweet_quoted_user
  | P_quoted_mentions => Tweet_quoted_mentions
  | P_hashtags => Tweet_hashtags
  | P_quote_tweet => Tweet_quote_tweet
  | P_retweet => Tweet_retweet
  | P_embedded_tweet => Tweet_embedded_tweet
  end.

(** Reading a sequence of properties, one after the other, whatever each
    returns or raises. *)
Definition read_all (l : list accessor) (self : Tweet) : Tweet :=
  fold_left (fun t a => snd (read a t)) l self.

(** The states a [Tweet] goes through: built by the constructor, then
    read through its accessors. *)
Inductive reachable : Tweet -> Prop :=
| reach_new tweet_dict validate t :
    Tweet_new tweet_dict validate = Ok t -> reachable t
| reach_read a t :
    reachable t -> reachable (snd (read a t)).

(** *** What each accessor computes, cache aside

    The value of an accessor as a function of the format flag and the
    entries: what its body returns when no stored value is involved. *)

Definition id_of : getter pyobj := fun fmt d =>
  b ← read_original_format fmt;
  if b : bool then
    v ← dict_getitem d "id_str"; mret (OVal v)
  else
    v ← dict_getitem d "id";
    parts ← value_split v ":";
    s ← index_last parts;
    mret (OVal (VStr s)).

Definition created_at_seconds_of : getter pyobj := fun fmt d =>
  i ← id_of fmt d;
  s ← snowflake2utc i;
  mret (OVal (VInt s)).

Definition created_at_datetime_of : getter pyobj := fun fmt d =>
  s ← created_at_seconds_of fmt d;
  utcfromtimestamp_obj s.

Definition created_at_string_of : getter pyobj := fun fmt d =>
  x ← created_at_datetime_of fmt d;
  strftime_obj x "%Y-%M-%dT%H:%M:%S.000Z".

Definition user_entered_text_of : getter pyobj := fun fmt d =>
  ty ← get_tweet_type fmt d;
  if eq_str ty "retweet" then mret (OVal (VStr ""))
  else get_full_text fmt d.

Definition quote_tweet_of : getter pyobj := fun fmt d =>
  found ← get_quote_tweet fmt d;
  match found with
  | Some payload =>
      try_Tweet payload (fun nate =>
        "The quote-tweet payload appears malformed. Failed with '"
          ++ nate ++ "'")
  | None => Ok (OVal VNone)
  end.

Definition retweet_of : getter pyobj := fun fmt d =>
  found ← get_retweet fmt d;
  match found with
  | Some payload =>
      try_Tweet payload (fun nate =>
        "The retweet payload appears malformed. Failed with '"
          ++ nate ++ "'")
  | None => Ok (OVal VNone)
  end.

Definition embedded_tweet_of : getter pyobj := fun fmt d =>
  found ← get_embedded_tweet fmt d;
  match found with
  | Some payload =>
      try_Tweet payload (fun nate =>
        "The embedded tweet payload " ++ dict_str payload
          ++ " appears malformed. " ++ String "010" "Failed with '"
          ++ nate ++ "'")
  | None => Ok (OVal VNone)
  end.

Definition value_of (a : accessor) : getter pyobj :=
  match a with
  | P_id => id_of
  | P_created_at_seconds => created_at_seconds_of
  | P_created_at_datetime => created_at_datetime_of
  | P_created_at_string => created_at_string_of
  | P_user_id => get_user_id
  | P_screen_name => get_screen_name
  | P_name => get_name
  | P_klout_score => get_klout_score
  | P_klout_profile => get_klout_profile
  | P_klout_id => get_klout_id
  | P_klout_influence_topics => get_klout_topics "influence"
  | P_klout_interest_topics => get_klout_topics "interest"
  | P_text => get_text
  | P_tweet_type => get_tweet_type
  | P_user_entered_text => user_entered_text_of
  | P_poll_options => get_poll_options
  | P_quote_or_rt_text => get_quote_or_rt_text
  | P_all_text => get_all_text
  | P_geo_coordinates => get_geo_coordinates
  | P_profile_location => get_profile_location
  | P_tweet_links => get_tweet_links
  | P_most_unrolled_urls => get_most_unrolled_urls
  | P_user_mentions => get_user_mentions
  | P_quoted_user => get_quoted_user
  | P_quoted_mentions => get_quoted_mentions
  | P_hashtags => get_hashtags
  | P_quote_tweet => quote_tweet_of
  | P_retweet => retweet_of
  | P_embedded_tweet => embedded_tweet_of
  end.

(** Every stored value is the value of its accessor on this tweet. *)
Definition coherent (self : Tweet) : Prop :=
  forall key o, lazy self !! key = Some o ->
    exists a, key = attr_name a
              /\ value_of a (original_format self) (entries self) = Ok o.

(** A method body [m] computes [f]: on a coherent tweet it returns what
    [f] gives on the format flag and the entries, changes neither, and
    leaves the tweet coherent. *)
Definition computes {A} (m : M A) (f : getter A) : Prop :=
  forall self, coherent self ->
    fst (m self) = f (original_format self) (entries self)
    /\ original_format (snd (m self)) = original_format self
    /\ entries (snd (m self)) = entries self
    /\ coherent (snd (m self)).

(** A body that only reads: it returns [f] and the tweet as it was. *)
Definition reads {A} (m : M A) (f : getter A) : Prop :=
  forall self, m self = (f (original_format self) (entries self), self).

End Accessors.

(** ** The collaborators as the specification describes them *)

Definition has_key (d : dict) (key : string) : bool :=
  match d !! key with Some _ => true | None => false end.

(** The key sets of strict validation ([tweet_keys], not in the
    sources): per format, the keys a payload may have and those it must
    have. *)
Record key_sets : Type := {
  superset : bool -> gset string;
  minset : bool -> gset string
}.

(** Modelled from the spec: [tweet_checking.check_tweet] is not in the
    sources.  Section 4.1: the variant is decided by the discriminating
    keys, an identifier with the timestamp field of either format
    ([created_at] for the original format, [postedTime] for activity
    streams), and a payload with neither pattern fails with
    [NotATweetError].  Section 6: with strict validation, unexpected or
    missing keys fail too. *)
Definition spec_check_tweet (keys : key_sets) (tweet : dict) (validate : bool)
  : result bool :=
  if negb (has_key tweet "id") then
    Err (NotATweetError "the payload has no 'id' key")
  else
    fmt ← (if has_key tweet "created_at" then Ok true
           else if has_key tweet "postedTime" then Ok false
           else Err (NotATweetError
                  "the payload has neither 'created_at' nor 'postedTime'"));
    if validate && negb (bool_decide (dom tweet ⊆ superset keys fmt)) then
      Err (NotATweetError "the payload has unexpected keys")
    else if validate && negb (bool_decide (minset keys fmt ⊆ dom tweet)) then
      Err (NotATweetError "the payload misses expected keys")
    else Ok fmt.

Definition is_digit (c : ascii) : bool :=
  let n := Z.of_nat (nat_of_ascii c) in (48 <=? n) && (n <=? 57).

(** The number a digit string denotes, read from the left. *)
Fixpoint digits_value (s : string) (acc : Z) : option Z :=
  match s with
  | EmptyString => Some acc
  | String c rest =>
      if is_digit c
      then digits_value rest (10 * acc + (Z.of_nat (nat_of_ascii c) - 48))
      else None
  end.

(** The numeric value of an identifier: an integer, or a non-empty
    string of decimal digits. *)
Definition numeric_value (x : pyobj) : result Z :=
  match x with
  | OVal (VInt n) => Ok n
  | OVal (VStr EmptyString) => Err (ValueError "invalid literal for int()")
  | OVal (VStr s) =>
      match digits_value s 0 with
      | Some n => Ok n
      | None => Err (ValueError "invalid literal for int()")
      end
  | _ => Err (TypeError "int() argument must be a string or a number")
  end.

Definition snowflake_epoch : Z := 1288834974657.

(** Modelled from the spec: [tweet_date.snowflake2utc] is not in the
    sources.  Section 4.2: the identifier's numeric value shifted right
    by 22 bits is a number of milliseconds after the custom epoch; the
    epoch is added and the sum divided by 1000, truncated. *)
Definition spec_snowflake2utc (sf : pyobj) : result Z :=
  n ← numeric_value sf;
  mret ((Z.shiftr n 22 + snowflake_epoch) ÷ 1000).

(** The nested payload a repost carries: under [retweeted_status] in the
    original format, under [object] of an activity whose [verb] is
    [share] in activity streams.  The specification speaks of a repost
    marker without naming it; these are the names of the wire formats. *)
Definition repost_payload (fmt : bool) (d : dict) : option value :=
  if fmt then d !! "retweeted_status"
  else match d !! "verb" with
       | Some (VStr v) => if String.eqb v "share" then d !! "object" else None
       | _ => None
       end.

(** The nested payload a quote carries. *)
Definition quote_payload (fmt : bool) (d : dict) : option value :=
  d !! (if fmt then "quoted_status" else "twitter_quoted_status").

Definition present {A} (o : option A) : bool :=
  match o with Some _ => true | None => false end.

(** Modelled from the spec: [tweet_text.get_tweet_type] is not in the
    sources.  Section 4.3: repost marker present, [retweet]; quote
    marker present and no repost marker, [quote]; neither, [tweet]. *)
Definition spec_get_tweet_type : getter pyobj := fun fmt d =>
  b ← read_original_format fmt;
  mret (OVal (VStr (if present (repost_payload b d) then "retweet"
                    else if present (quote_payload b d) then "quote"
                    else "tweet"))).

(** Modelled from the spec: [tweet_text.get_text] is not in the sources.
    Section 4.3: the raw display text field, under the key of the
    variant. *)
Definition spec_get_text : getter pyobj := fun fmt d =>
  b ← read_original_format fmt;
  v ← dict_getitem d (if b : bool then "text" else "body");
  mret (OVal v).

(** The extended text of a payload, when it carries one. *)
Definition extended_text (fmt : bool) (d : dict) : option value :=
  if fmt then
    match d !! "extended_tweet" with
    | Some (VDict e) => e !! "full_text"
    | _ => None
    end
  else
    match d !! "long_object" with
    | Some (VDict o) => o !! "body"
    | _ => None
    end.

(** Modelled from the spec: [tweet_text.get_full_text] is not in the
    sources.  Section 4.3: the untruncated text, the extended-text field
    before the possibly truncated short one when both exist. *)
Definition spec_get_full_text : getter pyobj := fun fmt d =>
  b ← read_original_format fmt;
  match extended_text b d with
  | Some v => mret (OVal v)
  | None => v ← dict_getitem d (if b : bool then "text" else "body");
            mret (OVal v)
  end.

Definition field (key : string) (v : value) : option value :=
  match v with VDict d => d !! key | _ => None end.

Definition items (v : value) : option (list value) :=
  match v with VList l => Some l | _ => None end.

(** The labels of one poll: [text] of every entry of its [options]. *)
Definition option_labels (poll : value) : option (list value) :=
  options ← field "options" poll;
  l ← items options;
  mapM (M := option) (field "text") l.

(** The option labels of the polls of a payload, over every entry of
    [entities.polls]. *)
Definition poll_labels (d : dict) : option (list value) :=
  entities ← d !! "entities";
  polls ← field "polls" entities;
  l ← items polls;
  labels ← mapM (M := option) option_labels l;
  Some (concat labels).

(** Modelled from the spec: [tweet_text.get_poll_options] is not in the
    sources.  Section 4.3: the option labels of the poll substructure
    when present, else an empty list; [NotAvailableError] for activity
    streams, which carry no poll data. *)
Definition spec_get_poll_options : getter pyobj := fun fmt d =>
  b ← read_original_format fmt;
  if b : bool then mret (OVal (VList (default [] (poll_labels d))))
  else Err (NotAvailableError
              "activity-streams payloads do not carry poll options").

(** A nested payload as the constructor's argument: a missing key and a
    JSON null are no payload. *)
Definition as_payload (o : option value) : result (option dict) :=
  match o with
  | None | Some VNone => Ok None
  | Some (VDict p) => Ok (Some p)
  | Some _ => Err (TypeError "the nested payload is not a mapping")
  end.

(** Modelled from the spec: [tweet_embeds] is not in the sources.
    Section 4.5: each of its getters locates the nested raw payload;
    [get_quote_tweet] the one under the quote marker. *)
Definition spec_get_quote_tweet : getter (option dict) := fun fmt d =>
  b ← read_original_format fmt;
  as_payload (quote_payload b d).

(** Modelled from the spec: [tweet_embeds.get_retweet], the nested
    payload under the repost marker (section 4.5). *)
Definition spec_get_retweet : getter (option dict) := fun fmt d =>
  b ← read_original_format fmt;
  as_payload (repost_payload b d).

(** Modelled from the spec: [tweet_embeds.get_embedded_tweet], the
    nested payload of whichever marker is present (section 4.5). *)
Definition spec_get_embedded_tweet : getter (option dict) := fun fmt d =>
  b ← read_original_format fmt;
  match repost_payload b d with
  | Some v => as_payload (Some v)
  | None => as_payload (quote_payload b d)
  end.

(** The collaborators of the specification, over the key sets of strict
    validation.  The getters it gives no rule for are [rest], indexed by
    the accessor they serve, and [render] is the rendering of a dict. *)
Definition spec_collaborators (keys : key_sets)
    (rest : accessor -> getter pyobj) (render : dict -> string)
  : Collaborators := {|
  check_tweet := spec_check_tweet keys;
  snowflake2utc := spec_snowflake2utc;
  get_user_id := rest P_user_id;
  get_screen_name := rest P_screen_name;
  get_name := rest P_name;
  get_klout_score := rest P_klout_score;
  get_klout_profile := rest P_klout_profile;
  get_klout_id := rest P_klout_id;
  get_klout_topics := fun topic_type =>
    if String.eqb topic_type "influence" then rest P_klout_influence_topics
    else rest P_klout_interest_topics;
  get_text := spec_get_text;
  get_tweet_type := spec_get_tweet_type;
  get_full_text := spec_get_full_text;
  get_poll_options := spec_get_poll_options;
  get_quote_or_rt_text := rest P_quote_or_rt_text;
  get_all_text := rest P_all_text;
  get_geo_coordinates := rest P_geo_coordinates;
  get_profile_location := rest P_profile_location;
  get_tweet_links := rest P_tweet_links;
  get_most_unrolled_urls := rest P_most_unrolled_urls;
  get_user_mentions := rest P_user_mentions;
  get_quoted_user := rest P_quoted_user;
  get_quoted_mentions := rest P_quoted_mentions;
  get_hashtags := rest P_hashtags;
  get_quote_tweet := spec_get_quote_tweet;
  get_retweet := spec_get_retweet;
  get_embedded_tweet := spec_get_embedded_tweet;
  dict_str := render
|}.

(** ** Payloads and collaborators of the examples *)

(** A source without enrichments: the getters the specification gives
    no rule for return None. *)
Definition no_enrichment : accessor -> getter pyobj :=
  fun _ _ _ => Ok (OVal VNone).

(** A rendering that elides the contents of the dict. *)
Definition elided : dict -> string := fun _ => "{...}".

Definition sample_keys : key_sets := {|
  superset := fun fmt =>
    if fmt : bool
    then {[ "id"; "id_str"; "created_at"; "text"; "user"; "entities";
            "truncated"; "extended_tweet"; "quoted_status";
            "retweeted_status" ]}
    else {[ "id"; "postedTime"; "actor"; "body"; "verb"; "object";
            "long_object"; "twitter_quoted_status" ]};
  minset := fun fmt =>
    if fmt : bool
    then {[ "id"; "id_str"; "created_at"; "text"; "user" ]}
    else {[ "id"; "postedTime"; "actor"; "body" ]}
|}.

Definition sample_collaborators : Collaborators :=
  spec_collaborators sample_keys no_enrichment elided.

Definition user_data : value := VDict {[ "user_keys" := VStr "user_data" ]}.

(** The original-format payload of the docstrings, with a given text. *)
Definition original_payload (text : string) : dict :=
  <[ "created_at" := VStr "Wed May 24 20:17:19 +0000 2017" ]>
  (<[ "id" := VInt 867474613139156993 ]>
  (<[ "id_str" := VStr "867474613139156993" ]>
  (<[ "user" := user_data ]>
  (<[ "text" := VStr text ]> ∅)))).

(** The activity-streams payload of the docstrings. *)
Definition activity_payload : dict :=
  <[ "postedTime" := VStr "2017-05-24T20:17:19.000Z" ]>
  (<[ "id" := VStr "tag:search.twitter.com,2005:867474613139156993" ]>
  (<[ "actor" := user_data ]>
  (<[ "body" := VStr "some tweet text" ]> ∅))).

(** A payload with none of the discriminating keys. *)
Definition not_a_tweet : dict := {[ "text" := VStr "some text" ]}.

(** A nested payload the lenient classifier accepts and strict
    validation refuses: it has the discriminating keys only. *)
Definition bare_payload : dict :=
  <[ "created_at" := VStr "Wed May 24 20:17:19 +0000 2017" ]>
  (<[ "id" := VInt 867474613139156993 ]> ∅).

(** A poll with two options. *)
Definition poll : value :=
  VDict {[ "options" :=
    VList [ VDict {[ "text" := VStr "yes" ]};
            VDict {[ "text" := VStr "no" ]} ] ]}.

(** A complete tweet without text: nothing is truncated and the text
    is the empty string. *)
Definition empty_text_payload : dict :=
  <[ "truncated" := VBool false ]> (original_payload "").

(** A tweet that both quotes and reposts the payload [nested]. *)
Definition embedding (nested : dict) : dict :=
  <[ "quoted_status" := VDict nested ]>
  (<[ "retweeted_status" := VDict nested ]>
   (original_payload "some tweet text")).

(** A tweet with a poll. *)
Definition polling : dict :=
  <[ "entities" := VDict {[ "polls" := VList [poll] ]} ]>
  (original_payload "yes or no?").

(** The tweet the constructor builds from a payload of a known format. *)
Definition built (fmt : bool) (payload : dict) : Tweet :=
  mkTweet (Some fmt) (payload ∪ ∅) ∅.

(** [c] occurs in [s]. *)
Fixpoint has_char (c : ascii) (s : string) : bool :=
  match s with
  | EmptyString => false
  | String c' rest => Ascii.eqb c' c || has_char c rest
  end.

(** ** Reference notions for the further properties *)

(** [sep.join(parts)]. *)
Fixpoint str_join (sep : ascii) (parts : list string) : string :=
  match parts with
  | [] => EmptyString
  | [part] => part
  | part :: rest => part ++ String sep (str_join sep rest)
  end.

(** The proleptic Gregorian (year, month, day) to days since
    1970-01-01: the way back from [civil_from_days]. *)
Definition days_from_civil (y m d : Z) : Z :=
  let y' := if m <=? 2 then y - 1 else y in
  let era := y' / 400 in
  let yoe := y' - era * 400 in
  let mp := if 2 <? m then m - 3 else m + 9 in
  let doy := (153 * mp + 2) / 5 + d - 1 in
  let doe := yoe * 365 + yoe / 4 - yoe / 100 + doy in
  era * 146097 + doe - 719468.

(** [calendar.timegm(d.timetuple())]: the seconds since the epoch that
    a UTC datetime denotes. *)
Definition timegm (d : datetime) : Z :=
  days_from_civil (year d) (month d) (day d) * 86400
  + hour d * 3600 + minute d * 60 + second d.

(** The fields of a datetime are in their ranges. *)
Definition valid_datetime (d : datetime) : Prop :=
  1 <= year d <= 9999 /\ 1 <= month d <= 12 /\ 1 <= day d <= 31
  /\ 0 <= hour d <= 23 /\ 0 <= minute d <= 59 /\ 0 <= second d <= 59.

(** The template of [created_at_string] with the calendar month. *)
Definition month_template : string := "%Y-%m-%dT%H:%M:%S.000Z".

(** [C] with another classifier. *)
Definition with_classifier (check : dict -> bool -> result bool)
    (C : Collaborators) : Collaborators := {|
  check_tweet := check;
  snowflake2utc := @snowflake2utc C;
  get_user_id := @get_user_id C;
  get_screen_name := @get_screen_name C;
  get_name := @get_name C;
  get_klout_score := @get_klout_score C;
  get_klout_profile := @get_klout_profile C;
  get_klout_id := @get_klout_id C;
  get_klout_topics := @get_klout_topics C;
  get_text := @get_text C;
  get_tweet_type := @get_tweet_type C;
  get_full_text := @get_full_text C;
  get_poll_options := @get_poll_options C;
  get_quote_or_rt_text := @get_quote_or_rt_text C;
  get_all_text := @get_all_text C;
  get_geo_coordinates := @get_geo_coordinates C;
  get_profile_location := @get_profile_location C;
  get_tweet_links := @get_tweet_links C;
  get_most_unrolled_urls := @get_most_unrolled_urls C;
  get_user_mentions := @get_user_mentions C;
  get_quoted_user := @get_quoted_user C;
  get_quoted_mentions := @get_quoted_mentions C;
  get_hashtags := @get_hashtags C;
  get_quote_tweet := @get_quote_tweet C;
  get_retweet := @get_retweet C;
  get_embedded_tweet := @get_embedded_tweet C;
  dict_str := @dict_str C
|}.

(** A classifier that reads [tweet["id_str"]] before anything else: a
    payload without the key makes it raise [KeyError]. *)
Definition indexing_check_tweet (tweet : dict) (validate : bool)
  : result bool :=
  _ ← dict_getitem tweet "id_str";
  spec_check_tweet sample_keys tweet validate.

Definition indexing_collaborators : Collaborators :=
  with_classifier indexing_check_tweet sample_collaborators.

(** An activity-streams payload whose identifier is a number. *)
Definition numeric_id_payload : dict :=
  <[ "id" := VInt 867474613139156993 ]> activity_payload.

(** An original-format payload without [id_str]. *)
Definition no_id_str_payload : dict :=
  delete "id_str" (original_payload "some tweet text").

(** A tweet whose quote and repost markers hold a string. *)
Definition text_embeds : dict :=
  <[ "quoted_status" := VStr "a tweet" ]>
  (<[ "retweeted_status" := VStr "a tweet" ]>
   (original_payload "some tweet text")).

(** An original-format payload without any text field. *)
Definition textless_payload : dict := delete "text" (original_payload "").

(** A retweet without any text field. *)
Definition textless_retweet : dict :=
  <[ "retweeted_status" := VDict (original_payload "some tweet text") ]>
  (delete "text" (original_payload "")).

(** * Properties *)

(** ** Strings *)

Lemma str_split_nonempty sep s : str_split sep s <> [].
Proof.
  destruct s as [|c rest]; simpl; [discriminate|].
  destruct (Ascii.eqb c sep); [discriminate|].
  destruct (str_split sep rest); discriminate.
Qed.

(** Without the separator the string is the only part. *)
Lemma str_split_no_sep sep s :
  has_char sep s = false -> str_split sep s = [s].
Proof.
  induction s as [|c rest IH]; simpl; [reflexivity|].
  intros H. apply orb_false_elim in H as [Hc Hrest].
  rewrite Hc, (IH Hrest). reflexivity.
Qed.

(** The last part of a split is what follows the last separator. *)
Lemma str_split_last sep pre suf :
  has_char sep suf = false ->
  index_last (str_split sep (pre ++ String sep suf)) = Ok suf.
Proof.
  intros Hsuf. unfold index_last.
  assert (H : exists h t,
             str_split sep (pre ++ String sep suf) = (h :: t ++ [suf])%list).
  { induction pre as [|c rest (h & t & IH)]; simpl.
    - rewrite Ascii.eqb_refl, (str_split_no_sep _ _ Hsuf).
      exists EmptyString, []. reflexivity.
    - rewrite IH. destruct (Ascii.eqb c sep).
      + exists EmptyString, (h :: t). reflexivity.
      + exists (String c h), t. reflexivity. }
  destruct H as (h & t & ->).
  change (h :: t ++ [suf])%list with ((h :: t) ++ [suf])%list.
  rewrite rev_app_distr. reflexivity.
Qed.

(** ** Memoisation: every accessor computes its value *)

Lemma attr_name_inj a b : attr_name a = attr_name b -> a = b.
Proof. destruct a, b; simpl; intros H; try reflexivity; discriminate H. Qed.

Section Memoisation.
Context `{!Collaborators}.

Lemma reads_computes {A} (m : M A) (f : getter A) :
  reads m f -> computes m f.
Proof. intros Hm self Hc. rewrite Hm. simpl. auto. Qed.

Lemma computes_bind {A B} (m : M A) (k : A -> M B) f g :
  computes m f -> (forall x, computes (k x) (g x)) ->
  computes (m ≫= k) (fun fmt d => f fmt d ≫= fun x => g x fmt d).
Proof.
  intros Hm Hk self Hc.
  destruct (Hm self Hc) as (Hr & Hf & He & Hc').
  change ((m ≫= k) self) with
    (match m self with
     | (Ok a, self') => k a self'
     | (Err e, self') => (Err e, self')
     end).
  destruct (m self) as [[a|e] self']; simpl in Hr, Hf, He, Hc'.
  - rewrite <- Hr. simpl.
    destruct (Hk a self' Hc') as (Hr' & Hf' & He' & Hc'').
    rewrite Hr', Hf', He', Hf, He. auto.
  - rewrite <- Hr. simpl. auto.
Qed.

(** [lazy_property]: a stored value is the accessor's value, and storing
    the value just computed keeps the tweet coherent. *)
Lemma computes_lazy a (fn : M pyobj) :
  computes fn (value_of a) ->
  computes (lazy_property (attr_name a) fn) (value_of a).
Proof.
  intros Hfn self Hc. unfold lazy_property.
  destruct (lazy self !! attr_name a) as [o|] eqn:Hlook.
  - destruct (Hc _ _ Hlook) as (a' & Ha' & Hv).
    apply attr_name_inj in Ha'. subst a'. simpl. auto.
  - destruct (Hfn self Hc) as (Hr & Hf & He & Hc').
    destruct (fn self) as [[v|e] self']; simpl in *; [|auto].
    repeat split; try assumption.
    intros key o. simpl. destruct (decide (key = attr_name a)) as [->|Hne].
    + rewrite lookup_insert_eq. intros [= ->]. exists a.
      rewrite Hf, He. auto.
    + rewrite lookup_insert_ne by congruence. apply Hc'.
Qed.

Lemma reads_call {A} (g : getter A) : reads (call g) g.
Proof. intros self. reflexivity. Qed.

Lemma Tweet_id_reads :
  reads (fmt ← get_original_format;
         if fmt : bool then
           v ← getitem "id_str"; mret (OVal v)
         else
           v ← getitem "id";
           parts ← lift (value_split v ":");
           s ← lift (index_last parts);
           mret (OVal (VStr s))) id_of.
Proof.
  intros [fmt d c]. unfold id_of, mbind, M_bind, get_original_format,
    getitem, lift, result_bind. simpl.
  destruct fmt as [[|]|]; simpl; [| |reflexivity].
  - destruct (dict_getitem d "id_str"); reflexivity.
  - destruct (dict_getitem d "id") as [v|]; [|reflexivity].
    destruct (value_split v ":") as [parts|]; [|reflexivity].
    destruct (index_last parts); reflexivity.
Qed.

Lemma Tweet_id_computes : computes Tweet_id id_of.
Proof. apply (computes_lazy P_id), reads_computes, Tweet_id_reads. Qed.

Lemma Tweet_created_at_seconds_computes :
  computes Tweet_created_at_seconds created_at_seconds_of.
Proof.
  apply (computes_lazy P_created_at_seconds).
  apply (computes_bind Tweet_id _ id_of
           (fun i _ _ => s ← snowflake2utc i; mret (OVal (VInt s))));
    [apply Tweet_id_computes|].
  intros i. apply reads_computes. intros self.
  unfold mbind, M_bind, lift, result_bind.
  destruct (snowflake2utc i); reflexivity.
Qed.

Lemma Tweet_created_at_datetime_computes :
  computes Tweet_created_at_datetime created_at_datetime_of.
Proof.
  apply (computes_lazy P_created_at_datetime).
  apply (computes_bind Tweet_created_at_seconds _ created_at_seconds_of
           (fun s _ _ => utcfromtimestamp_obj s));
    [apply Tweet_created_at_seconds_computes|].
  intros s. apply reads_computes. intros self. reflexivity.
Qed.

Lemma Tweet_created_at_string_computes :
  computes Tweet_created_at_string created_at_string_of.
Proof.
  apply (computes_lazy P_created_at_string).
  apply (computes_bind Tweet_created_at_datetime _ created_at_datetime_of
           (fun x _ _ => strftime_obj x "%Y-%M-%dT%H:%M:%S.000Z"));
    [apply Tweet_created_at_datetime_computes|].
  intros x. apply reads_computes. intros self. reflexivity.
Qed.

Lemma Tweet_tweet_type_computes : computes Tweet_tweet_type get_tweet_type.
Proof. apply (computes_lazy P_tweet_type), reads_computes, reads_call. Qed.

Lemma Tweet_user_entered_text_computes :
  computes Tweet_user_entered_text user_entered_text_of.
Proof.
  apply (computes_lazy P_user_entered_text).
  apply (computes_bind Tweet_tweet_type _ get_tweet_type
           (fun ty fmt d => if eq_str ty "retweet" then mret (OVal (VStr ""))
                            else get_full_text fmt d));
    [apply Tweet_tweet_type_computes|].
  intros ty. apply reads_computes. intros self.
  destruct (eq_str ty "retweet"); reflexivity.
Qed.

Lemma embedding_reads (g : getter (option dict)) (message : dict -> string -> string) :
  reads (found ← call g;
         match found with
         | Some payload => lift (try_Tweet payload (message payload))
         | None => mret (OVal VNone)
         end)
        (fun fmt d =>
           found ← g fmt d;
           match found with
           | Some payload => try_Tweet payload (message payload)
           | None => Ok (OVal VNone)
           end).
Proof.
  intros self. unfold mbind, M_bind, call, result_bind.
  destruct (g (original_format self) (entries self)) as [[payload|]|];
    reflexivity.
Qed.

(** Reading any property computes its value. *)
Lemma read_computes a : computes (read a) (value_of a).
Proof.
  destruct a;
    match goal with
    | |- computes (read ?a) _ =>
        try (apply (computes_lazy a), reads_computes, reads_call)
    end.
  - apply Tweet_id_computes.
  - apply Tweet_created_at_seconds_computes.
  - apply Tweet_created_at_datetime_computes.
  - apply Tweet_created_at_string_computes.
  - apply Tweet_user_entered_text_computes.
  - apply (computes_lazy P_quote_tweet), reads_computes.
    apply (embedding_reads get_quote_tweet (fun _ nate => _)).
  - apply (computes_lazy P_retweet), reads_computes.
    apply (embedding_reads get_retweet (fun _ nate => _)).
  - apply (computes_lazy P_embedded_tweet), reads_computes.
    apply (embedding_reads get_embedded_tweet (fun payload nate => _)).
Qed.

End Memoisation.

(** ** Construction and the states of a tweet *)

Section Construction.
Context `{!Collaborators}.

Lemma Tweet___init___ok tweet_dict validate fmt :
  check_tweet tweet_dict validate = Ok fmt ->
  Tweet___init__ tweet_dict validate blank = (Ok tt, built fmt tweet_dict).
Proof.
  intros Hcheck. unfold Tweet___init__, mbind, M_bind, lift.
  rewrite Hcheck. reflexivity.
Qed.

Lemma Tweet___init___err tweet_dict validate e :
  check_tweet tweet_dict validate = Err e ->
  Tweet___init__ tweet_dict validate blank = (Err e, blank).
Proof.
  intros Hcheck. unfold Tweet___init__, mbind, M_bind, lift.
  rewrite Hcheck. reflexivity.
Qed.

Lemma Tweet_new_ok tweet_dict validate fmt :
  check_tweet tweet_dict validate = Ok fmt ->
  Tweet_new tweet_dict validate = Ok (built fmt tweet_dict).
Proof.
  intros Hcheck. unfold Tweet_new.
  rewrite (Tweet___init___ok _ _ _ Hcheck). reflexivity.
Qed.

Lemma Tweet_new_err tweet_dict validate e :
  check_tweet tweet_dict validate = Err e ->
  Tweet_new tweet_dict validate = Err e.
Proof.
  intros Hcheck. unfold Tweet_new.
  rewrite (Tweet___init___err _ _ _ Hcheck). reflexivity.
Qed.

(** A tweet exists only classified: the constructor returns the payload
    with the format the classifier gave it. *)
Lemma Tweet_new_inv tweet_dict validate t :
  Tweet_new tweet_dict validate = Ok t ->
  exists fmt, check_tweet tweet_dict validate = Ok fmt
              /\ t = built fmt tweet_dict.
Proof.
  destruct (check_tweet tweet_dict validate) as [fmt|e] eqn:Hcheck.
  - rewrite (Tweet_new_ok _ _ _ Hcheck). intros [= <-]. eauto.
  - rewrite (Tweet_new_err _ _ _ Hcheck). discriminate.
Qed.

Lemma built_coherent fmt payload : coherent (built fmt payload).
Proof. intros key o. simpl. rewrite lookup_empty. discriminate. Qed.

Lemma reachable_coherent t : reachable t -> coherent t.
Proof.
  induction 1 as [d v t Hnew | a t _ IH].
  - apply Tweet_new_inv in Hnew as (fmt & _ & ->). apply built_coherent.
  - apply (read_computes a t IH).
Qed.

(** On a tweet in use, a property reads as its value. *)
Lemma reachable_read a t :
  reachable t ->
  fst (read a t) = value_of a (original_format t) (entries t).
Proof. intros Hr. apply (read_computes a t (reachable_coherent t Hr)). Qed.

Lemma reachable_frame a t :
  reachable t ->
  original_format (snd (read a t)) = original_format t
  /\ entries (snd (read a t)) = entries t.
Proof.
  intros Hr.
  destruct (read_computes a t (reachable_coherent t Hr)) as (_ & Hf & He & _).
  auto.
Qed.

Lemma reachable_classified t :
  reachable t -> exists fmt, original_format t = Some fmt.
Proof.
  induction 1 as [d v t Hnew | a t Hr (fmt & IH)].
  - apply Tweet_new_inv in Hnew as (fmt & _ & ->). exists fmt. reflexivity.
  - exists fmt. rewrite <- IH. apply (reachable_frame a t Hr).
Qed.

Lemma read_all_reachable l t : reachable t -> reachable (read_all l t).
Proof.
  revert t. induction l as [|a l IH]; intros t Hr; simpl; [assumption|].
  apply IH, reach_read, Hr.
Qed.

Lemma read_all_frame l t :
  reachable t ->
  original_format (read_all l t) = original_format t
  /\ entries (read_all l t) = entries t.
Proof.
  revert t. induction l as [|a l IH]; intros t Hr; simpl; [auto|].
  destruct (IH _ (reach_read a t Hr)) as [Hf He].
  destruct (reachable_frame a t Hr) as [Hf' He'].
  rewrite Hf, He. auto.
Qed.

Lemma lazy_property_stores name fn t v :
  fst (lazy_property name fn t) = Ok v ->
  lazy (snd (lazy_property name fn t)) !! name = Some v.
Proof.
  unfold lazy_property. destruct (lazy t !! name) as [o|] eqn:Hlook; simpl.
  - intros [= ->]. exact Hlook.
  - destruct (fn t) as [[o|e] t']; simpl; [|discriminate].
    intros [= ->]. apply lookup_insert_eq.
Qed.

Lemma lazy_property_stored name fn t v :
  lazy t !! name = Some v -> lazy_property name fn t = (Ok v, t).
Proof. intros Hlook. unfold lazy_property. rewrite Hlook. reflexivity. Qed.

Lemma read_lazy_property a :
  exists fn, read a = lazy_property (attr_name a) fn.
Proof. destruct a; eexists; reflexivity. Qed.

(** A second read returns the same and changes nothing any more. *)
Lemma read_twice a t v :
  fst (read a t) = Ok v ->
  read a (snd (read a t)) = (Ok v, snd (read a t)).
Proof.
  destruct (read_lazy_property a) as [fn ->]. intros Hv.
  apply lazy_property_stored, lazy_property_stores, Hv.
Qed.

Lemma Tweet_id_value t :
  reachable t -> fst (Tweet_id t) = id_of (original_format t) (entries t).
Proof. exact (reachable_read P_id t). Qed.

Lemma Tweet_created_at_seconds_value t :
  reachable t ->
  fst (Tweet_created_at_seconds t)
  = created_at_seconds_of (original_format t) (entries t).
Proof. exact (reachable_read P_created_at_seconds t). Qed.

Lemma Tweet_created_at_datetime_value t :
  reachable t ->
  fst (Tweet_created_at_datetime t)
  = created_at_datetime_of (original_format t) (entries t).
Proof. exact (reachable_read P_created_at_datetime t). Qed.

Lemma Tweet_created_at_string_value t :
  reachable t ->
  fst (Tweet_created_at_string t)
  = created_at_string_of (original_format t) (entries t).
Proof. exact (reachable_read P_created_at_string t). Qed.

Lemma Tweet_tweet_type_value t :
  reachable t ->
  fst (Tweet_tweet_type t) = get_tweet_type (original_format t) (entries t).
Proof. exact (reachable_read P_tweet_type t). Qed.

Lemma Tweet_user_entered_text_value t :
  reachable t ->
  fst (Tweet_user_entered_text t)
  = user_entered_text_of (original_format t) (entries t).
Proof. exact (reachable_read P_user_entered_text t). Qed.

Lemma Tweet_poll_options_value t :
  reachable t ->
  fst (Tweet_poll_options t)
  = get_poll_options (original_format t) (entries t).
Proof. exact (reachable_read P_poll_options t). Qed.

Lemma Tweet_quote_tweet_value t :
  reachable t ->
  fst (Tweet_quote_tweet t) = quote_tweet_of (original_format t) (entries t).
Proof. exact (reachable_read P_quote_tweet t). Qed.

Lemma Tweet_retweet_value t :
  reachable t ->
  fst (Tweet_retweet t) = retweet_of (original_format t) (entries t).
Proof. exact (reachable_read P_retweet t). Qed.

Lemma Tweet_embedded_tweet_value t :
  reachable t ->
  fst (Tweet_embedded_tweet t)
  = embedded_tweet_of (original_format t) (entries t).
Proof. exact (reachable_read P_embedded_tweet t). Qed.

End Construction.

(** ** The identifier *)

(** C1.  On a tweet of the original format [id] is the [id_str] entry
    of the payload, as it stands; on a tweet of the activity-streams
    format it is what follows the last [:] of the string under [id]. *)
Theorem id_by_variant `{!Collaborators} (self : Tweet) :
  reachable self ->
  (original_format self = Some true ->
   forall v, entries self !! "id_str" = Some v ->
     fst (Tweet_id self) = Ok (OVal v))
  /\ (original_format self = Some false ->
      forall pre suf,
        entries self !! "id" = Some (VStr (pre ++ String ":" suf)) ->
        has_char ":" suf = false ->
        fst (Tweet_id self) = Ok (OVal (VStr suf))).
Proof.
  intros Hr. rewrite (Tweet_id_value self Hr). unfold id_of. split.
  - intros -> v Hv. simpl. unfold dict_getitem. rewrite Hv. reflexivity.
  - intros -> pre suf Hid Hsuf. simpl. unfold dict_getitem. rewrite Hid.
    simpl. rewrite (str_split_last _ _ _ Hsuf). reflexivity.
Qed.

Lemma id_by_variant_witness :
  fst (Tweet_id (built true (original_payload "some tweet text")))
  = Ok (OVal (VStr "867474613139156993"))
  /\ fst (Tweet_id (built false activity_payload))
     = Ok (OVal (VStr "867474613139156993")).
Proof.
  split.
  - apply (proj1 (@id_by_variant sample_collaborators _
             (@reach_new sample_collaborators
                (original_payload "some tweet text") false _ eq_refl)));
      reflexivity.
  - apply (proj2 (@id_by_variant sample_collaborators _
             (@reach_new sample_collaborators activity_payload false _
                eq_refl)) eq_refl "tag:search.twitter.com,2005");
      reflexivity.
Defined.

(** An activity-streams identifier without a [:] is returned whole. *)
Lemma id_without_colon `{!Collaborators} (self : Tweet) s :
  reachable self -> original_format self = Some false ->
  entries self !! "id" = Some (VStr s) -> has_char ":" s = false ->
  fst (Tweet_id self) = Ok (OVal (VStr s)).
Proof.
  intros Hr Hf Hid Hs. rewrite (Tweet_id_value self Hr), Hf. unfold id_of.
  simpl. unfold dict_getitem. rewrite Hid. simpl.
  rewrite (str_split_no_sep _ _ Hs). reflexivity.
Qed.

(** Without the entry the lookup raises [KeyError]. *)
Lemma id_missing `{!Collaborators} (self : Tweet) fmt :
  reachable self -> original_format self = Some fmt ->
  entries self !! (if fmt : bool then "id_str" else "id") = None ->
  fst (Tweet_id self)
  = Err (KeyError (if fmt : bool then "id_str" else "id")).
Proof.
  intros Hr Hf Hnone. rewrite (Tweet_id_value self Hr), Hf. unfold id_of.
  destruct fmt; simpl; unfold dict_getitem; rewrite Hnone; reflexivity.
Qed.

(** ** Creation time *)

(** C2.  With [snowflake2utc] as the specification describes it,
    [created_at_seconds] decodes the identifier as a snowflake: its
    numeric value shifted right by 22 bits, plus 1288834974657, divided
    by 1000 and truncated; for the identifier 867474613139156993 this is
    1495657039. *)
Theorem created_at_seconds_snowflake `{!Collaborators}
    (self : Tweet) (s : string) (n : Z) :
  snowflake2utc = spec_snowflake2utc ->
  reachable self ->
  fst (Tweet_id self) = Ok (OVal (VStr s)) ->
  s <> "" -> digits_value s 0 = Some n ->
  fst (Tweet_created_at_seconds self)
  = Ok (OVal (VInt ((Z.shiftr n 22 + 1288834974657) ÷ 1000)))
  /\ (s = "867474613139156993" ->
      fst (Tweet_created_at_seconds self) = Ok (OVal (VInt 1495657039))).
Proof.
  intros Hspec Hr Hid Hs Hn.
  assert (Hsec : fst (Tweet_created_at_seconds self)
                 = Ok (OVal (VInt ((Z.shiftr n 22 + 1288834974657) ÷ 1000)))).
  { rewrite (Tweet_created_at_seconds_value self Hr).
    unfold created_at_seconds_of.
    rewrite <- (Tweet_id_value self Hr), Hid, Hspec. simpl.
    unfold spec_snowflake2utc, numeric_value.
    destruct s as [|c rest]; [contradiction|]. rewrite Hn. reflexivity. }
  split; [exact Hsec|].
  intros ->. rewrite Hsec. vm_compute in Hn. injection Hn as <-.
  reflexivity.
Qed.

Lemma created_at_seconds_snowflake_witness :
  fst (@Tweet_created_at_seconds sample_collaborators
         (built true (original_payload "some tweet text")))
  = Ok (OVal (VInt 1495657039)).
Proof.
  refine (proj2 (@created_at_seconds_snowflake sample_collaborators
                   (built true (original_payload "some tweet text"))
                   "867474613139156993" 867474613139156993
                   eq_refl
                   (@reach_new sample_collaborators
                      (original_payload "some tweet text") false _ eq_refl)
                   eq_refl _ eq_refl) eq_refl).
  discriminate.
Defined.

(** The identifier of an activity-streams payload decodes alike. *)
Example created_at_seconds_activity :
  fst (@Tweet_created_at_seconds sample_collaborators
         (built false activity_payload))
  = Ok (OVal (VInt 1495657039)).
Proof. vm_compute. reflexivity. Qed.

(** Whatever the date, [created_at_string] prints the minute where the
    template has the month. *)
Lemma created_at_string_fields `{!Collaborators} (self : Tweet) d :
  reachable self ->
  fst (Tweet_created_at_datetime self) = Ok (ODatetime d) ->
  fst (Tweet_created_at_string self)
  = Ok (OVal (VStr
      (decimal 4 (year d) "" ++ "-" ++ pad2 (minute d) ++ "-" ++ pad2 (day d)
       ++ "T" ++ pad2 (hour d) ++ ":" ++ pad2 (minute d) ++ ":"
       ++ pad2 (second d) ++ ".000Z"))).
Proof.
  intros Hr Hd. rewrite (Tweet_created_at_string_value self Hr).
  unfold created_at_string_of.
  rewrite <- (Tweet_created_at_datetime_value self Hr), Hd.
  reflexivity.
Qed.

(** C3.  The tweet of the docstrings was posted on 2017-05-24 at
    20:17:19; [created_at_string] gives it the month 17, the minute,
    where the template with the calendar month has 05. *)
Theorem created_at_string_minute_as_month :
  let self := built true (original_payload "some tweet text") in
  @Tweet_new sample_collaborators (original_payload "some tweet text") false
  = Ok self
  /\ fst (@Tweet_created_at_datetime sample_collaborators self)
     = Ok (ODatetime (mkDatetime 2017 5 24 20 17 19))
  /\ fst (@Tweet_created_at_string sample_collaborators self)
     = Ok (OVal (VStr "2017-17-24T20:17:19.000Z"))
  /\ strftime (mkDatetime 2017 5 24 20 17 19) "%Y-%m-%dT%H:%M:%S.000Z"
     = "2017-05-24T20:17:19.000Z".
Proof. vm_compute. repeat split; reflexivity. Qed.

(** ** The type of a tweet and the text its user entered *)

(** With [get_tweet_type] as the specification describes it, the type
    of a classified tweet is one of three strings. *)
Lemma spec_tweet_type_cases fmt d :
  exists ty, spec_get_tweet_type (Some fmt) d = Ok (OVal (VStr ty))
             /\ (ty = "tweet" \/ ty = "quote" \/ ty = "retweet").
Proof.
  unfold spec_get_tweet_type. simpl.
  destruct (present (repost_payload fmt d)); [eauto|].
  destruct (present (quote_payload fmt d)); eauto.
Qed.

(** C4, as the code has it.  The type of a tweet is one of [tweet],
    [quote] and [retweet].  [user_entered_text] is the empty string for
    a [retweet]; for the two others it is the full text: the extended
    text when the payload carries one, the short text field if not.  So
    it is the empty string if and only if the tweet is a [retweet] or
    its full text is empty. *)
Theorem user_entered_text_by_type `{!Collaborators} (self : Tweet) :
  get_tweet_type = spec_get_tweet_type ->
  get_full_text = spec_get_full_text ->
  reachable self ->
  exists fmt ty,
    original_format self = Some fmt
    /\ fst (Tweet_tweet_type self) = Ok (OVal (VStr ty))
    /\ (ty = "tweet" \/ ty = "quote" \/ ty = "retweet")
    /\ (ty = "retweet" ->
        fst (Tweet_user_entered_text self) = Ok (OVal (VStr "")))
    /\ (ty <> "retweet" ->
        (forall v, extended_text fmt (entries self) = Some v ->
           fst (Tweet_user_entered_text self) = Ok (OVal v))
        /\ (extended_text fmt (entries self) = None ->
            forall v,
              entries self !! (if fmt : bool then "text" else "body") = Some v ->
              fst (Tweet_user_entered_text self) = Ok (OVal v)))
    /\ (fst (Tweet_user_entered_text self) = Ok (OVal (VStr ""))
        <-> ty = "retweet"
            \/ get_full_text (Some fmt) (entries self) = Ok (OVal (VStr ""))).
Proof.
  intros Hty Hfull Hr.
  destruct (reachable_classified self Hr) as [fmt Hfmt].
  destruct (spec_tweet_type_cases fmt (entries self)) as (ty & Hspec & Hcases).
  exists fmt, ty.
  rewrite (Tweet_tweet_type_value self Hr),
    (Tweet_user_entered_text_value self Hr).
  unfold user_entered_text_of. rewrite Hty, Hfull, Hfmt, Hspec.
  repeat split; try assumption.
  - intros ->. reflexivity.
  - intros v Hext. simpl.
    destruct (String.eqb_spec ty "retweet") as [->|_]; [contradiction|].
    unfold spec_get_full_text. simpl. rewrite Hext. reflexivity.
  - intros Hext v Hv. simpl.
    destruct (String.eqb_spec ty "retweet") as [->|_]; [contradiction|].
    unfold spec_get_full_text. simpl. rewrite Hext.
    unfold dict_getitem. rewrite Hv. reflexivity.
  - simpl. destruct (String.eqb_spec ty "retweet") as [->|Hne]; auto.
  - simpl. destruct (String.eqb_spec ty "retweet") as [->|Hne];
      [reflexivity|]. intros [Hrt|Hempty]; [contradiction|exact Hempty].
Qed.

Lemma user_entered_text_by_type_witness :
  let self := built true (original_payload "some tweet text") in
  exists ty,
    fst (@Tweet_tweet_type sample_collaborators self) = Ok (OVal (VStr ty))
    /\ (ty = "tweet" \/ ty = "quote" \/ ty = "retweet")
    /\ (fst (@Tweet_user_entered_text sample_collaborators self)
        = Ok (OVal (VStr ""))
        <-> ty = "retweet"
            \/ spec_get_full_text (Some true) (entries self)
               = Ok (OVal (VStr ""))).
Proof.
  destruct (@user_entered_text_by_type sample_collaborators
              (built true (original_payload "some tweet text"))
              eq_refl eq_refl
              (@reach_new sample_collaborators
                 (original_payload "some tweet text") false _ eq_refl))
    as (fmt & ty & Hfmt & Hty & Hcases & _ & _ & Hiff).
  injection Hfmt as <-.
  exact (ex_intro _ ty (conj Hty (conj Hcases Hiff))).
Defined.

(** C4, as stated, fails: a tweet whose text is empty is no retweet and
    its [user_entered_text] is the empty string. *)
Lemma empty_text_without_retweet :
  let self := built true empty_text_payload in
  @Tweet_new sample_collaborators empty_text_payload false = Ok self
  /\ fst (@Tweet_tweet_type sample_collaborators self)
     = Ok (OVal (VStr "tweet"))
  /\ fst (@Tweet_user_entered_text sample_collaborators self)
     = Ok (OVal (VStr ""))
  /\ ~ (fst (@Tweet_user_entered_text sample_collaborators self)
        = Ok (OVal (VStr ""))
        <-> fst (@Tweet_tweet_type sample_collaborators self)
            = Ok (OVal (VStr "retweet"))).
Proof.
  split; [reflexivity|]. split; [reflexivity|]. split; [reflexivity|].
  intros [Hto _]. specialize (Hto eq_refl). vm_compute in Hto.
  discriminate Hto.
Qed.

(** A retweet has no text of its user, whatever the getters are. *)
Lemma retweet_has_no_user_text `{!Collaborators} (self : Tweet) :
  reachable self ->
  fst (Tweet_tweet_type self) = Ok (OVal (VStr "retweet")) ->
  fst (Tweet_user_entered_text self) = Ok (OVal (VStr "")).
Proof.
  intros Hr Hty. rewrite (Tweet_user_entered_text_value self Hr).
  unfold user_entered_text_of.
  rewrite <- (Tweet_tweet_type_value self Hr), Hty. reflexivity.
Qed.

(** ** Embedded tweets *)

Lemma length_append (s t : string) :
  String.length (s ++ t) = (String.length s + String.length t)%nat.
Proof. induction s as [|c s IH]; simpl; [reflexivity|]. rewrite IH. reflexivity. Qed.

(** A message with text around it is not the message. *)
Lemma framed_message_differs (before after nate : string) :
  before <> "" -> before ++ nate ++ after <> nate.
Proof.
  intros Hb Heq. apply (f_equal String.length) in Heq.
  rewrite !length_append in Heq.
  destruct before; [contradiction|]. simpl in Heq. lia.
Qed.

(** C5.  When the classifier refuses the nested payload with a
    [NotATweetError], each of [quote_tweet], [retweet] and
    [embedded_tweet] raises a [NotATweetError] of its own: its message
    names the embedding (the quote-tweet, the retweet, the embedded
    tweet with the payload) and quotes the message of the classifier;
    it is never the classifier's error as it was. *)
Theorem embedded_failure_is_wrapped `{!Collaborators}
    (self : Tweet) (payload : dict) (nate : string) :
  reachable self ->
  check_tweet payload false = Err (NotATweetError nate) ->
  (get_quote_tweet (original_format self) (entries self) = Ok (Some payload) ->
   fst (Tweet_quote_tweet self)
   = Err (NotATweetError
            ("The quote-tweet payload appears malformed. Failed with '"
               ++ nate ++ "'"))
   /\ fst (Tweet_quote_tweet self) <> Err (NotATweetError nate))
  /\ (get_retweet (original_format self) (entries self) = Ok (Some payload) ->
      fst (Tweet_retweet self)
      = Err (NotATweetError
               ("The retweet payload appears malformed. Failed with '"
                  ++ nate ++ "'"))
      /\ fst (Tweet_retweet self) <> Err (NotATweetError nate))
  /\ (get_embedded_tweet (original_format self) (entries self)
      = Ok (Some payload) ->
      fst (Tweet_embedded_tweet self)
      = Err (NotATweetError
               ("The embedded tweet payload " ++ dict_str payload
                  ++ " appears malformed. " ++ String "010" "Failed with '"
                  ++ nate ++ "'"))
      /\ fst (Tweet_embedded_tweet self) <> Err (NotATweetError nate)).
Proof.
  intros Hr Hcheck.
  pose proof (Tweet_new_err _ _ _ Hcheck) as Hnew.
  rewrite (Tweet_quote_tweet_value self Hr), (Tweet_retweet_value self Hr),
    (Tweet_embedded_tweet_value self Hr).
  unfold quote_tweet_of, retweet_of, embedded_tweet_of.
  split; [|split]; intros Hget; rewrite Hget; simpl; unfold try_Tweet;
    rewrite Hnew; (split; [reflexivity|]); intros [= Heq]; revert Heq.
  - apply framed_message_differs. discriminate.
  - apply framed_message_differs. discriminate.
  - intros Heq. apply (f_equal String.length) in Heq.
    rewrite !length_append in Heq. simpl in Heq. lia.
Qed.

Lemma embedded_failure_is_wrapped_witness :
  let self := built true (embedding not_a_tweet) in
  fst (@Tweet_quote_tweet sample_collaborators self)
  = Err (NotATweetError
      "The quote-tweet payload appears malformed. Failed with 'the payload has no 'id' key'")
  /\ fst (@Tweet_retweet sample_collaborators self)
     = Err (NotATweetError
         "The retweet payload appears malformed. Failed with 'the payload has no 'id' key'")
  /\ fst (@Tweet_embedded_tweet sample_collaborators self)
     <> Err (NotATweetError "the payload has no 'id' key").
Proof.
  destruct (@embedded_failure_is_wrapped sample_collaborators
              (built true (embedding not_a_tweet)) not_a_tweet
              "the payload has no 'id' key"
              (@reach_new sample_collaborators (embedding not_a_tweet)
                 false _ eq_refl)
              eq_refl) as (Hquote & Hretweet & Hembedded).
  exact (conj (proj1 (Hquote eq_refl))
           (conj (proj1 (Hretweet eq_refl)) (proj2 (Hembedded eq_refl)))).
Defined.

(** C7.  When the getter finds no nested payload, [quote_tweet],
    [retweet] and [embedded_tweet] return None; nothing is raised. *)
Theorem no_embedded_payload_is_none `{!Collaborators} (self : Tweet) :
  reachable self ->
  (get_quote_tweet (original_format self) (entries self) = Ok None ->
   fst (Tweet_quote_tweet self) = Ok (OVal VNone))
  /\ (get_retweet (original_format self) (entries self) = Ok None ->
      fst (Tweet_retweet self) = Ok (OVal VNone))
  /\ (get_embedded_tweet (original_format self) (entries self) = Ok None ->
      fst (Tweet_embedded_tweet self) = Ok (OVal VNone)).
Proof.
  intros Hr.
  rewrite (Tweet_quote_tweet_value self Hr), (Tweet_retweet_value self Hr),
    (Tweet_embedded_tweet_value self Hr).
  unfold quote_tweet_of, retweet_of, embedded_tweet_of.
  split; [|split]; intros ->; reflexivity.
Qed.

Lemma no_embedded_payload_is_none_witness :
  let self := built true (original_payload "some tweet text") in
  fst (@Tweet_quote_tweet sample_collaborators self) = Ok (OVal VNone)
  /\ fst (@Tweet_retweet sample_collaborators self) = Ok (OVal VNone)
  /\ fst (@Tweet_embedded_tweet sample_collaborators self) = Ok (OVal VNone).
Proof.
  destruct (@no_embedded_payload_is_none sample_collaborators
              (built true (original_payload "some tweet text"))
              (@reach_new sample_collaborators
                 (original_payload "some tweet text") false _ eq_refl))
    as (Hquote & Hretweet & Hembedded).
  exact (conj (Hquote eq_refl) (conj (Hretweet eq_refl) (Hembedded eq_refl))).
Defined.

(** With the getters of the specification, a payload without the quote
    and repost markers has no nested payload. *)
Lemma spec_getters_find_nothing fmt (d : dict) :
  quote_payload fmt d = None -> repost_payload fmt d = None ->
  spec_get_quote_tweet (Some fmt) d = Ok None
  /\ spec_get_retweet (Some fmt) d = Ok None
  /\ spec_get_embedded_tweet (Some fmt) d = Ok None.
Proof.
  intros Hq Hrt.
  unfold spec_get_quote_tweet, spec_get_retweet, spec_get_embedded_tweet.
  simpl. rewrite Hq, Hrt. auto.
Qed.

(** C9.  Whatever validation flag the outer tweet was built with and
    whatever was read from it since, an embedding accessor returns a
    tweet exactly when the constructor without strict validation builds
    it from the nested payload: the flag of the outer tweet plays no
    part. *)
Theorem embedded_built_without_validation `{!Collaborators}
    (tweet_dict : dict) (validate : bool) (t : Tweet) (l : list accessor)
    (payload : dict) :
  Tweet_new tweet_dict validate = Ok t ->
  let self := read_all l t in
  (get_quote_tweet (original_format self) (entries self) = Ok (Some payload) ->
   forall t', fst (Tweet_quote_tweet self) = Ok (OTweet t')
              <-> Tweet_new payload false = Ok t')
  /\ (get_retweet (original_format self) (entries self) = Ok (Some payload) ->
      forall t', fst (Tweet_retweet self) = Ok (OTweet t')
                 <-> Tweet_new payload false = Ok t')
  /\ (get_embedded_tweet (original_format self) (entries self)
      = Ok (Some payload) ->
      forall t', fst (Tweet_embedded_tweet self) = Ok (OTweet t')
                 <-> Tweet_new payload false = Ok t').
Proof.
  intros Hnew self.
  assert (Hr : reachable self).
  { apply read_all_reachable, (reach_new _ _ _ Hnew). }
  rewrite (Tweet_quote_tweet_value self Hr), (Tweet_retweet_value self Hr),
    (Tweet_embedded_tweet_value self Hr).
  unfold quote_tweet_of, retweet_of, embedded_tweet_of.
  split; [|split]; intros -> t'; simpl; unfold try_Tweet;
    destruct (Tweet_new payload false) as [t''|[]];
    split; congruence.
Qed.

Lemma embedded_built_without_validation_witness :
  let self := built true (embedding bare_payload) in
  @Tweet_new sample_collaborators (embedding bare_payload) true = Ok self
  /\ @check_tweet sample_collaborators bare_payload true
     = Err (NotATweetError "the payload misses expected keys")
  /\ fst (@Tweet_quote_tweet sample_collaborators self)
     = Ok (OTweet (built true bare_payload))
  /\ fst (@Tweet_retweet sample_collaborators self)
     = Ok (OTweet (built true bare_payload))
  /\ fst (@Tweet_embedded_tweet sample_collaborators self)
     = Ok (OTweet (built true bare_payload)).
Proof.
  destruct (@embedded_built_without_validation sample_collaborators
              (embedding bare_payload) true
              (built true (embedding bare_payload)) [] bare_payload
              ltac:(vm_compute; reflexivity))
    as (Hquote & Hretweet & Hembedded).
  split; [vm_compute; reflexivity|].
  split; [vm_compute; reflexivity|].
  exact (conj (proj2 (Hquote eq_refl _) eq_refl)
           (conj (proj2 (Hretweet eq_refl _) eq_refl)
                 (proj2 (Hembedded eq_refl _) eq_refl))).
Defined.

(** ** The constructor and the entries *)

(** The classifier of the specification refuses a payload without the
    discriminating keys, with or without strict validation. *)
Lemma spec_check_tweet_refuses keys (tweet : dict) validate :
  has_key tweet "id" = false
  \/ (has_key tweet "created_at" = false
      /\ has_key tweet "postedTime" = false) ->
  exists msg, spec_check_tweet keys tweet validate = Err (NotATweetError msg).
Proof.
  unfold spec_check_tweet. intros [Hid | [Hc Hp]].
  - rewrite Hid. simpl. eauto.
  - destruct (has_key tweet "id"); simpl; [|eauto].
    rewrite Hc, Hp. simpl. eauto.
Qed.

(** C6.  When the classifier refuses the payload with a
    [NotATweetError], the constructor raises that error and returns no
    tweet: [__init__] stops before anything is set, the instance still
    has no entry and no attribute.  A tweet the constructor returns has
    the format the classifier gave its payload. *)
Theorem unclassified_payload_builds_nothing `{!Collaborators}
    (tweet_dict : dict) (validate : bool) (msg : string) :
  check_tweet tweet_dict validate = Err (NotATweetError msg) ->
  Tweet_new tweet_dict validate = Err (NotATweetError msg)
  /\ Tweet___init__ tweet_dict validate blank
     = (Err (NotATweetError msg), blank)
  /\ (forall t, Tweet_new tweet_dict validate <> Ok t)
  /\ (forall d v t, Tweet_new d v = Ok t ->
        exists fmt, check_tweet d v = Ok fmt /\ original_format t = Some fmt).
Proof.
  intros Hcheck. rewrite (Tweet_new_err _ _ _ Hcheck).
  repeat split.
  - apply (Tweet___init___err _ _ _ Hcheck).
  - discriminate.
  - intros d v t Hnew. apply Tweet_new_inv in Hnew as (fmt & Hfmt & ->).
    exists fmt. auto.
Qed.

Lemma unclassified_payload_builds_nothing_witness :
  @Tweet_new sample_collaborators not_a_tweet false
  = Err (NotATweetError "the payload has no 'id' key")
  /\ @Tweet___init__ sample_collaborators not_a_tweet false blank
     = (Err (NotATweetError "the payload has no 'id' key"), blank).
Proof.
  destruct (@unclassified_payload_builds_nothing sample_collaborators
              not_a_tweet false "the payload has no 'id' key" eq_refl)
    as (Hnew & Hinit & _).
  exact (conj Hnew Hinit).
Defined.

(** C10.  A tweet is a dict with the entries of its payload: after
    construction every entry of the payload is read by a lookup, the
    tweet has no other entry, and reading properties, in any number and
    order, leaves the entries as they are. *)
Theorem tweet_keeps_its_payload `{!Collaborators}
    (tweet_dict : dict) (validate : bool) (t : Tweet) (l : list accessor) :
  Tweet_new tweet_dict validate = Ok t ->
  (forall key v, tweet_dict !! key = Some v -> fst (getitem key t) = Ok v)
  /\ entries t = tweet_dict
  /\ entries (read_all l t) = entries t.
Proof.
  intros Hnew. pose proof (reach_new _ _ _ Hnew) as Hr.
  apply Tweet_new_inv in Hnew as (fmt & _ & ->).
  assert (He : entries (built fmt tweet_dict) = tweet_dict).
  { simpl. apply (right_id_L ∅ (∪)). }
  repeat split.
  - intros key v Hv. unfold getitem, dict_getitem. rewrite He. simpl.
    rewrite Hv. reflexivity.
  - exact He.
  - apply (read_all_frame l _ Hr).
Qed.

Lemma tweet_keeps_its_payload_witness :
  let t := built true (original_payload "some tweet text") in
  fst (getitem "text" t) = Ok (VStr "some tweet text")
  /\ entries (@read_all sample_collaborators
                [P_id; P_created_at_string; P_poll_options; P_quote_tweet] t)
     = entries t.
Proof.
  destruct (@tweet_keeps_its_payload sample_collaborators
              (original_payload "some tweet text") false
              (built true (original_payload "some tweet text"))
              [P_id; P_created_at_string; P_poll_options; P_quote_tweet]
              eq_refl)
    as (Hlookup & _ & Hread).
  exact (conj (Hlookup "text" _ eq_refl) Hread).
Defined.

(** ** Poll options *)

(** C8.  With [get_poll_options] as the specification describes it:
    on an activity-streams tweet [poll_options] raises
    [NotAvailableError], whatever the payload; on a tweet of the
    original format it returns the labels of the poll options when the
    payload has polls and the empty list when it has none. *)
Theorem poll_options_by_variant `{!Collaborators} (self : Tweet) :
  get_poll_options = spec_get_poll_options ->
  reachable self ->
  (original_format self = Some false ->
   exists msg, fst (Tweet_poll_options self) = Err (NotAvailableError msg))
  /\ (original_format self = Some true ->
      (forall labels, poll_labels (entries self) = Some labels ->
         fst (Tweet_poll_options self) = Ok (OVal (VList labels)))
      /\ (poll_labels (entries self) = None ->
          fst (Tweet_poll_options self) = Ok (OVal (VList [])))).
Proof.
  intros Hspec Hr. rewrite (Tweet_poll_options_value self Hr), Hspec.
  unfold spec_get_poll_options. split; intros ->; simpl.
  - eauto.
  - split; [intros labels|]; intros ->; reflexivity.
Qed.

Lemma poll_options_by_variant_witness :
  (exists msg,
     fst (@Tweet_poll_options sample_collaborators
            (built false activity_payload))
     = Err (NotAvailableError msg))
  /\ fst (@Tweet_poll_options sample_collaborators (built true polling))
     = Ok (OVal (VList [VStr "yes"; VStr "no"]))
  /\ fst (@Tweet_poll_options sample_collaborators
            (built true (original_payload "some tweet text")))
     = Ok (OVal (VList [])).
Proof.
  split; [|split].
  - exact (proj1 (@poll_options_by_variant sample_collaborators
                    (built false activity_payload) eq_refl
                    (@reach_new sample_collaborators activity_payload false _
                       eq_refl)) eq_refl).
  - exact (proj1 (proj2 (@poll_options_by_variant sample_collaborators
                           (built true polling) eq_refl
                           (@reach_new sample_collaborators polling false _
                              eq_refl)) eq_refl) _ eq_refl).
  - exact (proj2 (proj2 (@poll_options_by_variant sample_collaborators
                           (built true (original_payload "some tweet text"))
                           eq_refl
                           (@reach_new sample_collaborators
                              (original_payload "some tweet text") false _
                              eq_refl)) eq_refl) eq_refl).
Defined.

(** * Further properties of the class *)

(** ** Splitting an identifier *)

(** Joining the parts of a split gives the string back. *)
Lemma str_join_split sep s : str_join sep (str_split sep s) = s.
Proof.
  induction s as [|c rest IH]; simpl; [reflexivity|].
  destruct (Ascii.eqb_spec c sep) as [->|Hne].
  - destruct (str_split sep rest) as [|h t] eqn:E.
    + exfalso. exact (str_split_nonempty _ _ E).
    + change (str_join sep (EmptyString :: h :: t))
        with (String sep (str_join sep (h :: t))).
      rewrite IH. reflexivity.
  - destruct (str_split sep rest) as [|h t] eqn:E.
    + exfalso. exact (str_split_nonempty _ _ E).
    + rewrite <- IH. destruct t; reflexivity.
Qed.

(** No part of a split holds the separator. *)
Lemma str_split_parts sep s :
  Forall (fun part => has_char sep part = false) (str_split sep s).
Proof.
  induction s as [|c rest IH]; simpl.
  - constructor; [reflexivity|constructor].
  - destruct (Ascii.eqb c sep) eqn:Hc.
    + constructor; [reflexivity|exact IH].
    + destruct (str_split sep rest) as [|h t].
      * constructor; [simpl; rewrite Hc; reflexivity|constructor].
      * inversion IH as [|? ? Hh Ht]; subst.
        constructor; [simpl; rewrite Hc, Hh; reflexivity|exact Ht].
Qed.

Lemma str_join_last sep front suf :
  front <> [] ->
  exists pre, str_join sep (front ++ [suf])%list = pre ++ String sep suf.
Proof.
  induction front as [|h t IH]; [contradiction|]. intros _.
  destruct t as [|h' t'].
  - exists h. reflexivity.
  - destruct IH as [pre Hpre]; [discriminate|].
    exists (h ++ String sep pre).
    change (str_join sep ((h :: h' :: t') ++ [suf])%list)
      with (h ++ String sep (str_join sep ((h' :: t') ++ [suf])%list)).
    rewrite Hpre. clear. induction h as [|c h IH]; simpl;
      [reflexivity | exact (f_equal (String c) IH)].
Qed.

(** The last part of any split: it is there, it holds no separator,
    and the string is that part alone or ends with the separator
    followed by that part. *)
Lemma str_split_last_part sep s :
  exists suf,
    index_last (str_split sep s) = Ok suf
    /\ has_char sep suf = false
    /\ (s = suf \/ exists pre, s = pre ++ String sep suf).
Proof.
  pose proof (str_join_split sep s) as Hjoin.
  pose proof (str_split_parts sep s) as Hparts.
  destruct (exists_last (str_split_nonempty sep s)) as (front & suf & Hsplit).
  rewrite Hsplit in Hjoin, Hparts. exists suf. split; [|split].
  - unfold index_last. rewrite Hsplit, rev_app_distr. reflexivity.
  - apply Forall_app in Hparts as [_ Hsuf]. inversion Hsuf; assumption.
  - destruct front as [|h t].
    + left. symmetry. exact Hjoin.
    + right. destruct (str_join_last sep (h :: t) suf) as [pre Hpre];
        [discriminate|]. exists pre. rewrite <- Hjoin. exact Hpre.
Qed.

(** ** The identifier, further *)

(** X1.  On an activity-streams tweet whose [id] is a string, whatever
    the string, [id] returns a string: it holds no [:], and the [id]
    entry is that string alone or ends with [:] followed by it. *)
Theorem id_of_any_string `{!Collaborators} (self : Tweet) (s : string) :
  reachable self ->
  original_format self = Some false ->
  entries self !! "id" = Some (VStr s) ->
  exists suf,
    fst (Tweet_id self) = Ok (OVal (VStr suf))
    /\ has_char ":" suf = false
    /\ (s = suf \/ exists pre, s = pre ++ String ":" suf).
Proof.
  intros Hr Hf Hid.
  destruct (str_split_last_part ":" s) as (suf & Hlast & Hsuf & Hs).
  exists suf. split; [|auto].
  rewrite (Tweet_id_value self Hr), Hf. unfold id_of. simpl.
  unfold dict_getitem. rewrite Hid. simpl. rewrite Hlast. reflexivity.
Qed.

Lemma id_of_any_string_witness :
  exists suf,
    fst (Tweet_id (built false activity_payload)) = Ok (OVal (VStr suf))
    /\ has_char ":" suf = false
    /\ ("tag:search.twitter.com,2005:867474613139156993" = suf
        \/ exists pre,
            "tag:search.twitter.com,2005:867474613139156993"
            = pre ++ String ":" suf).
Proof.
  exact (@id_of_any_string sample_collaborators
           (built false activity_payload)
           "tag:search.twitter.com,2005:867474613139156993"
           (@reach_new sample_collaborators activity_payload false _ eq_refl)
           eq_refl eq_refl).
Defined.

(** X2.  [id] raises [KeyError] when the entry it reads is missing
    ([id_str] in the original format, [id] in activity streams), and
    [AttributeError] when the [id] of an activity-streams tweet is not a
    string. *)
Theorem id_errors `{!Collaborators} (self : Tweet) :
  reachable self ->
  (forall fmt : bool,
     original_format self = Some fmt ->
     entries self !! (if fmt then "id_str" else "id") = None ->
     fst (Tweet_id self) = Err (KeyError (if fmt then "id_str" else "id")))
  /\ (forall v,
        original_format self = Some false ->
        entries self !! "id" = Some v ->
        (forall s, v <> VStr s) ->
        exists msg, fst (Tweet_id self) = Err (AttributeError msg)).
Proof.
  intros Hr. rewrite (Tweet_id_value self Hr). unfold id_of. split.
  - intros fmt -> Hnone. destruct fmt; simpl; unfold dict_getitem;
      rewrite Hnone; reflexivity.
  - intros v -> Hv Hnot. simpl. unfold dict_getitem. rewrite Hv. simpl.
    destruct v; simpl; eauto. exfalso. exact (Hnot _ eq_refl).
Qed.

Lemma id_errors_witness :
  fst (Tweet_id (built true no_id_str_payload)) = Err (KeyError "id_str")
  /\ exists msg,
       fst (Tweet_id (built false numeric_id_payload))
       = Err (AttributeError msg).
Proof.
  split.
  - exact (proj1 (@id_errors sample_collaborators
                    (built true no_id_str_payload)
                    (@reach_new sample_collaborators no_id_str_payload false
                       _ eq_refl)) true eq_refl eq_refl).
  - refine (proj2 (@id_errors sample_collaborators
                     (built false numeric_id_payload)
                     (@reach_new sample_collaborators numeric_id_payload false
                        _ eq_refl)) (VInt 867474613139156993) eq_refl eq_refl
              _).
    intros s. discriminate.
Defined.

(** ** The calendar *)

Ltac split_ifs :=
  repeat match goal with
         | |- context [if ?c then _ else _] => destruct c eqn:?
         end.

Lemma doe_bounds z : 0 <= z - z / 146097 * 146097 < 146097.
Proof. Z.div_mod_to_equations; lia. Qed.

Lemma yoe_bounds doe :
  0 <= doe < 146097 ->
  let yoe := (doe - doe / 1460 + doe / 36524 - doe / 146096) / 365 in
  0 <= yoe <= 399 /\ 0 <= doe - (365 * yoe + yoe / 4 - yoe / 100) <= 365.
Proof. intros H. cbv zeta. Z.div_mod_to_equations; lia. Qed.

Lemma mp_bounds doy :
  0 <= doy <= 365 ->
  let mp := (5 * doy + 2) / 153 in
  0 <= mp <= 11 /\ 1 <= doy - (153 * mp + 2) / 5 + 1 <= 31.
Proof. intros H. cbv zeta. Z.div_mod_to_equations; lia. Qed.

(** The month and the day of a date are in range, and the date counts
    back to the day it came from. *)
Lemma civil_from_days_inv days y m d :
  civil_from_days days = (y, m, d) ->
  1 <= m <= 12 /\ 1 <= d <= 31 /\ days_from_civil y m d = days.
Proof.
  unfold civil_from_days, days_from_civil. cbv zeta. intros H.
  apply pair_equal_spec in H as [H <-].
  apply pair_equal_spec in H as [<- <-].
  set (z := days + 719468).
  set (era := z / 146097).
  set (doe := z - era * 146097).
  pose proof (doe_bounds z) as Hdoe. fold era in Hdoe. fold doe in Hdoe.
  pose proof (yoe_bounds doe Hdoe) as Hyoe. cbv zeta in Hyoe.
  set (yoe := (doe - doe / 1460 + doe / 36524 - doe / 146096) / 365) in *.
  set (doy := doe - (365 * yoe + yoe / 4 - yoe / 100)) in *.
  destruct Hyoe as [Hyoe Hdoy].
  pose proof (mp_bounds doy Hdoy) as Hmp. cbv zeta in Hmp.
  set (mp := (5 * doy + 2) / 153) in *.
  assert (Hera : (yoe + era * 400) / 400 = era)
    by (Z.div_mod_to_equations; lia).
  split; [split_ifs; lia|]. split; [lia|].
  split_ifs; try lia;
    rewrite ?Z.add_0_r, ?Z.add_simpl_r, ?Z.sub_add, Hera, Z.add_simpl_r;
    unfold doy, doe, z; lia.
Qed.

(** A datetime [utcfromtimestamp] returns has its fields in range and
    denotes the timestamp it was made from. *)
Lemma utcfromtimestamp_inv t d :
  utcfromtimestamp t = Ok d -> valid_datetime d /\ timegm d = t.
Proof.
  unfold utcfromtimestamp, valid_datetime, timegm.
  destruct (civil_from_days (t / 86400)) as [[y m] dd] eqn:Hcivil.
  apply civil_from_days_inv in Hcivil as (Hm & Hd & Hdays).
  destruct ((1 <=? y) && (y <=? 9999)) eqn:Hy; [|discriminate].
  intros [= <-]. simpl. rewrite Hdays.
  apply andb_true_iff in Hy as [Hy1 Hy2].
  apply Z.leb_le in Hy1, Hy2.
  repeat split; try lia; Z.div_mod_to_equations; lia.
Qed.

(** Two digits tell the number they print, below a hundred. *)
Lemma pad2_inj m n :
  0 <= m <= 99 -> 0 <= n <= 99 -> pad2 m = pad2 n -> m = n.
Proof.
  intros Hm Hn. unfold pad2, digit. intros [= Htens Hunits].
  apply (f_equal nat_of_ascii) in Htens, Hunits.
  rewrite !nat_ascii_embedding in Htens, Hunits
    by (assert (0 <= m / 10 mod 10 < 10) by (apply Z.mod_pos_bound; lia);
        assert (0 <= n / 10 mod 10 < 10) by (apply Z.mod_pos_bound; lia);
        assert (0 <= m mod 10 < 10) by (apply Z.mod_pos_bound; lia);
        assert (0 <= n mod 10 < 10) by (apply Z.mod_pos_bound; lia);
        lia).
  assert (Ht : m / 10 mod 10 = n / 10 mod 10).
  { assert (0 <= m / 10 mod 10) by (apply Z.mod_pos_bound; lia).
    assert (0 <= n / 10 mod 10) by (apply Z.mod_pos_bound; lia). lia. }
  assert (Hu : m mod 10 = n mod 10).
  { assert (0 <= m mod 10) by (apply Z.mod_pos_bound; lia).
    assert (0 <= n mod 10) by (apply Z.mod_pos_bound; lia). lia. }
  clear Htens Hunits. Z.div_mod_to_equations; lia.
Qed.

Lemma append_inj_r (a s t : string) : a ++ s = a ++ t -> s = t.
Proof. induction a as [|c a IH]; simpl; [auto|]. intros [= H]. auto. Qed.

(** The four digits of a year from 1000 to 9999. *)
Lemma decimal_year y :
  1000 <= y <= 9999 -> String.length (decimal 4 y "") = 4%nat.
Proof.
  intros Hy. simpl.
  assert (H1 : (y <? 10) = false) by (apply Z.ltb_ge; lia).
  assert (H2 : (y / 10 <? 10) = false)
    by (apply Z.ltb_ge; Z.div_mod_to_equations; lia).
  assert (H3 : (y / 10 / 10 <? 10) = false)
    by (apply Z.ltb_ge; Z.div_mod_to_equations; lia).
  rewrite H1, H2, H3. destruct (y / 10 / 10 / 10 <? 10); reflexivity.
Qed.

(** ** Creation time, further *)

(** What [created_at_datetime] returns is the datetime of the seconds
    [created_at_seconds] returns. *)
Lemma created_at_datetime_inv `{!Collaborators} (self : Tweet) o :
  reachable self ->
  fst (Tweet_created_at_datetime self) = Ok o ->
  exists d t,
    o = ODatetime d
    /\ fst (Tweet_created_at_seconds self) = Ok (OVal (VInt t))
    /\ utcfromtimestamp t = Ok d.
Proof.
  intros Hr. rewrite (Tweet_created_at_datetime_value self Hr),
    (Tweet_created_at_seconds_value self Hr).
  unfold created_at_datetime_of, created_at_seconds_of.
  destruct (id_of _ _) as [i|e]; simpl; [|discriminate].
  destruct (snowflake2utc i) as [t|e]; simpl; [|discriminate].
  destruct (utcfromtimestamp t) as [d|e] eqn:Hd; simpl; [|discriminate].
  intros [= <-]. eauto.
Qed.

(** X3.  The creation-time accessors fail together: an exception of
    [id] is the exception of [created_at_seconds], an exception of
    [created_at_seconds] that of [created_at_datetime], and an exception
    of [created_at_datetime] that of [created_at_string]. *)
Theorem creation_time_errors_propagate `{!Collaborators}
    (self : Tweet) (e : exn) :
  reachable self ->
  (fst (Tweet_id self) = Err e ->
   fst (Tweet_created_at_seconds self) = Err e)
  /\ (fst (Tweet_created_at_seconds self) = Err e ->
      fst (Tweet_created_at_datetime self) = Err e)
  /\ (fst (Tweet_created_at_datetime self) = Err e ->
      fst (Tweet_created_at_string self) = Err e).
Proof.
  intros Hr.
  rewrite (Tweet_id_value self Hr), (Tweet_created_at_seconds_value self Hr),
    (Tweet_created_at_datetime_value self Hr),
    (Tweet_created_at_string_value self Hr).
  unfold created_at_string_of, created_at_datetime_of, created_at_seconds_of.
  split; [|split]; intros ->; reflexivity.
Qed.

Lemma creation_time_errors_propagate_witness :
  let self := built true no_id_str_payload in
  fst (@Tweet_created_at_seconds sample_collaborators self)
  = Err (KeyError "id_str")
  /\ fst (@Tweet_created_at_datetime sample_collaborators self)
     = Err (KeyError "id_str")
  /\ fst (@Tweet_created_at_string sample_collaborators self)
     = Err (KeyError "id_str").
Proof.
  destruct (@creation_time_errors_propagate sample_collaborators
              (built true no_id_str_payload) (KeyError "id_str")
              (@reach_new sample_collaborators no_id_str_payload false _
                 eq_refl))
    as (Hseconds & Hdatetime & Hstring).
  exact (conj (Hseconds eq_refl)
           (conj (Hdatetime (Hseconds eq_refl))
                 (Hstring (Hdatetime (Hseconds eq_refl))))).
Defined.

(** X4.  The creation time depends on the identifier alone: two tweets
    with the same [id], of whatever formats and payloads, have the same
    [created_at_seconds], [created_at_datetime] and
    [created_at_string]. *)
Theorem creation_time_of_id `{!Collaborators} (self other : Tweet) :
  reachable self -> reachable other ->
  fst (Tweet_id self) = fst (Tweet_id other) ->
  fst (Tweet_created_at_seconds self) = fst (Tweet_created_at_seconds other)
  /\ fst (Tweet_created_at_datetime self)
     = fst (Tweet_created_at_datetime other)
  /\ fst (Tweet_created_at_string self) = fst (Tweet_created_at_string other).
Proof.
  intros Hs Ho.
  rewrite !Tweet_id_value, !Tweet_created_at_seconds_value,
    !Tweet_created_at_datetime_value, !Tweet_created_at_string_value
    by assumption.
  unfold created_at_string_of, created_at_datetime_of, created_at_seconds_of.
  intros ->. auto.
Qed.

Lemma creation_time_of_id_witness :
  let self := built true (original_payload "some tweet text") in
  let other := built false activity_payload in
  fst (@Tweet_created_at_seconds sample_collaborators self)
  = fst (@Tweet_created_at_seconds sample_collaborators other)
  /\ fst (@Tweet_created_at_datetime sample_collaborators self)
     = fst (@Tweet_created_at_datetime sample_collaborators other)
  /\ fst (@Tweet_created_at_string sample_collaborators self)
     = fst (@Tweet_created_at_string sample_collaborators other).
Proof.
  exact (@creation_time_of_id sample_collaborators
           (built true (original_payload "some tweet text"))
           (built false activity_payload)
           (@reach_new sample_collaborators
              (original_payload "some tweet text") false _ eq_refl)
           (@reach_new sample_collaborators activity_payload false _ eq_refl)
           ltac:(vm_compute; reflexivity)).
Defined.

(** X5.  When [created_at_datetime] returns, it returns a datetime
    with every field in its range, and this datetime denotes the
    second [created_at_seconds] returns: converted back to a timestamp
    it is that number. *)
Theorem created_at_datetime_round_trip `{!Collaborators}
    (self : Tweet) (o : pyobj) :
  reachable self ->
  fst (Tweet_created_at_datetime self) = Ok o ->
  exists d,
    o = ODatetime d
    /\ valid_datetime d
    /\ fst (Tweet_created_at_seconds self) = Ok (OVal (VInt (timegm d))).
Proof.
  intros Hr Ho.
  destruct (created_at_datetime_inv self o Hr Ho) as (d & t & -> & Ht & Hd).
  apply utcfromtimestamp_inv in Hd as [Hvalid <-]. eauto.
Qed.

Lemma created_at_datetime_round_trip_witness :
  exists d,
    ODatetime (mkDatetime 2017 5 24 20 17 19) = ODatetime d
    /\ valid_datetime d
    /\ fst (@Tweet_created_at_seconds sample_collaborators
              (built true (original_payload "some tweet text")))
       = Ok (OVal (VInt (timegm d))).
Proof.
  exact (@created_at_datetime_round_trip sample_collaborators
           (built true (original_payload "some tweet text"))
           (ODatetime (mkDatetime 2017 5 24 20 17 19))
           (@reach_new sample_collaborators
              (original_payload "some tweet text") false _ eq_refl)
           ltac:(vm_compute; reflexivity)).
Defined.

(** X6.  [created_at_string] is the rendering with the calendar month,
    [YYYY-mm-ddTHH:MM:SS.000Z], if and only if the month of the creation
    time equals its minute. *)
Theorem created_at_string_right_iff `{!Collaborators}
    (self : Tweet) (d : datetime) :
  reachable self ->
  fst (Tweet_created_at_datetime self) = Ok (ODatetime d) ->
  fst (Tweet_created_at_string self)
  = Ok (OVal (VStr (strftime d month_template)))
  <-> month d = minute d.
Proof.
  intros Hr Hd.
  destruct (created_at_datetime_round_trip self _ Hr Hd)
    as (d' & [= <-] & Hvalid & _).
  destruct Hvalid as (_ & Hmonth & _ & _ & Hminute & _).
  rewrite (created_at_string_fields self d Hr Hd).
  change (strftime d month_template)
    with (decimal 4 (year d) "" ++ "-" ++ pad2 (month d) ++ "-"
          ++ pad2 (day d) ++ "T" ++ pad2 (hour d) ++ ":" ++ pad2 (minute d)
          ++ ":" ++ pad2 (second d) ++ ".000Z").
  split.
  - intros [= Heq]. apply append_inj_r in Heq. injection Heq as Heq.
    assert (Hpad : pad2 (minute d) = pad2 (month d)).
    { unfold pad2 in *. simpl in Heq. congruence. }
    symmetry. apply pad2_inj; [lia|lia|exact Hpad].
  - intros ->. reflexivity.
Qed.

Lemma created_at_string_right_iff_witness :
  fst (@Tweet_created_at_string sample_collaborators
         (built true (original_payload "some tweet text")))
  = Ok (OVal (VStr "2017-05-24T20:17:19.000Z"))
  <-> 5 = 17.
Proof.
  exact (@created_at_string_right_iff sample_collaborators
           (built true (original_payload "some tweet text"))
           (mkDatetime 2017 5 24 20 17 19)
           (@reach_new sample_collaborators
              (original_payload "some tweet text") false _ eq_refl)
           ltac:(vm_compute; reflexivity)).
Defined.

(** X7.  For a creation time in the years 1000 to 9999,
    [created_at_string] is a string of 24 characters. *)
Theorem created_at_string_length `{!Collaborators}
    (self : Tweet) (d : datetime) :
  reachable self ->
  fst (Tweet_created_at_datetime self) = Ok (ODatetime d) ->
  1000 <= year d ->
  exists s, fst (Tweet_created_at_string self) = Ok (OVal (VStr s))
            /\ String.length s = 24%nat.
Proof.
  intros Hr Hd Hy.
  destruct (created_at_datetime_round_trip self _ Hr Hd)
    as (d' & [= <-] & (Hyear & _) & _).
  rewrite (created_at_string_fields self d Hr Hd).
  eexists. split; [reflexivity|].
  rewrite length_append, decimal_year by lia. reflexivity.
Qed.

Lemma created_at_string_length_witness :
  exists s,
    fst (@Tweet_created_at_string sample_collaborators
           (built true (original_payload "some tweet text")))
    = Ok (OVal (VStr s))
    /\ String.length s = 24%nat.
Proof.
  refine (@created_at_string_length sample_collaborators
            (built true (original_payload "some tweet text"))
            (mkDatetime 2017 5 24 20 17 19)
            (@reach_new sample_collaborators
               (original_payload "some tweet text") false _ eq_refl)
            ltac:(vm_compute; reflexivity) _).
  simpl. lia.
Defined.

(** ** Embedded tweets, further *)

(** X8.  An exception of the getter that looks for the nested payload
    is raised as it is by [quote_tweet], [retweet] and
    [embedded_tweet], a [NotATweetError] included: the getter is called
    outside the [try]. *)
Theorem getter_errors_pass `{!Collaborators} (self : Tweet) (e : exn) :
  reachable self ->
  (get_quote_tweet (original_format self) (entries self) = Err e ->
   fst (Tweet_quote_tweet self) = Err e)
  /\ (get_retweet (original_format self) (entries self) = Err e ->
      fst (Tweet_retweet self) = Err e)
  /\ (get_embedded_tweet (original_format self) (entries self) = Err e ->
      fst (Tweet_embedded_tweet self) = Err e).
Proof.
  intros Hr.
  rewrite (Tweet_quote_tweet_value self Hr), (Tweet_retweet_value self Hr),
    (Tweet_embedded_tweet_value self Hr).
  unfold quote_tweet_of, retweet_of, embedded_tweet_of.
  split; [|split]; intros ->; reflexivity.
Qed.

Lemma getter_errors_pass_witness :
  let self := built true text_embeds in
  let e := TypeError "the nested payload is not a mapping" in
  fst (@Tweet_quote_tweet sample_collaborators self) = Err e
  /\ fst (@Tweet_retweet sample_collaborators self) = Err e
  /\ fst (@Tweet_embedded_tweet sample_collaborators self) = Err e.
Proof.
  destruct (@getter_errors_pass sample_collaborators (built true text_embeds)
              (TypeError "the nested payload is not a mapping")
              (@reach_new sample_collaborators text_embeds false _ eq_refl))
    as (Hquote & Hretweet & Hembedded).
  exact (conj (Hquote eq_refl) (conj (Hretweet eq_refl) (Hembedded eq_refl))).
Defined.

(** X9.  When the classifier fails on the nested payload with an
    exception that is no [NotATweetError], the three accessors raise
    that exception unchanged: the handler catches [NotATweetError]
    only. *)
Theorem other_errors_pass `{!Collaborators}
    (self : Tweet) (payload : dict) (e : exn) :
  reachable self ->
  check_tweet payload false = Err e ->
  (forall nate, e <> NotATweetError nate) ->
  (get_quote_tweet (original_format self) (entries self) = Ok (Some payload) ->
   fst (Tweet_quote_tweet self) = Err e)
  /\ (get_retweet (original_format self) (entries self) = Ok (Some payload) ->
      fst (Tweet_retweet self) = Err e)
  /\ (get_embedded_tweet (original_format self) (entries self)
      = Ok (Some payload) ->
      fst (Tweet_embedded_tweet self) = Err e).
Proof.
  intros Hr Hcheck Hother.
  pose proof (Tweet_new_err _ _ _ Hcheck) as Hnew.
  rewrite (Tweet_quote_tweet_value self Hr), (Tweet_retweet_value self Hr),
    (Tweet_embedded_tweet_value self Hr).
  unfold quote_tweet_of, retweet_of, embedded_tweet_of.
  split; [|split]; intros ->; simpl; unfold try_Tweet; rewrite Hnew;
    destruct e; try reflexivity; exfalso; exact (Hother _ eq_refl).
Qed.

Lemma other_errors_pass_witness :
  let self := built true (embedding bare_payload) in
  fst (@Tweet_quote_tweet indexing_collaborators self)
  = Err (KeyError "id_str")
  /\ fst (@Tweet_retweet indexing_collaborators self)
     = Err (KeyError "id_str")
  /\ fst (@Tweet_embedded_tweet indexing_collaborators self)
     = Err (KeyError "id_str").
Proof.
  destruct (@other_errors_pass indexing_collaborators
              (built true (embedding bare_payload)) bare_payload
              (KeyError "id_str")
              (@reach_new indexing_collaborators (embedding bare_payload)
                 false _ eq_refl)
              eq_refl ltac:(intros nate; discriminate))
    as (Hquote & Hretweet & Hembedded).
  exact (conj (Hquote eq_refl) (conj (Hretweet eq_refl) (Hembedded eq_refl))).
Defined.

(** What an embedding accessor returns, for a getter [g] and a
    message: None, or the tweet built from the payload [g] found. *)
Lemma embedding_result `{!Collaborators}
    (g : getter (option dict)) (message : dict -> string -> string) fmt d o :
  (found ← g fmt d;
   match found with
   | Some payload => try_Tweet payload (message payload)
   | None => Ok (OVal VNone)
   end) = Ok o ->
  (o = OVal VNone /\ g fmt d = Ok None)
  \/ exists payload fmt' t,
       g fmt d = Ok (Some payload)
       /\ check_tweet payload false = Ok fmt'
       /\ o = OTweet t
       /\ reachable t
       /\ original_format t = Some fmt'
       /\ entries t = payload
       /\ lazy t = ∅.
Proof.
  destruct (g fmt d) as [[payload|]|e]; simpl; [| |discriminate].
  - unfold try_Tweet.
    destruct (Tweet_new payload false) as [t|[]] eqn:Hnew; try discriminate.
    intros [= <-]. right.
    pose proof (reach_new _ _ _ Hnew) as Hr.
    apply Tweet_new_inv in Hnew as (fmt' & Hcheck & ->).
    exists payload, fmt', (built fmt' payload).
    repeat split; try assumption. simpl. apply (right_id_L ∅ (∪)).
  - intros [= <-]. left. auto.
Qed.

(** X10.  [quote_tweet], [retweet] and [embedded_tweet] return None or
    a tweet, nothing else; the tweet is a new one, built from the nested
    payload the getter found: it has the format the classifier gives
    that payload without strict validation, its entries are those of the
    payload, and no property of it has been read yet. *)
Theorem embedded_is_new_tweet `{!Collaborators} (self : Tweet) (a : accessor)
    (g : getter (option dict)) (o : pyobj) :
  reachable self ->
  (a = P_quote_tweet /\ g = get_quote_tweet)
  \/ (a = P_retweet /\ g = get_retweet)
  \/ (a = P_embedded_tweet /\ g = get_embedded_tweet) ->
  fst (read a self) = Ok o ->
  (o = OVal VNone
   /\ g (original_format self) (entries self) = Ok None)
  \/ exists payload fmt t,
       g (original_format self) (entries self) = Ok (Some payload)
       /\ check_tweet payload false = Ok fmt
       /\ o = OTweet t
       /\ reachable t
       /\ original_format t = Some fmt
       /\ entries t = payload
       /\ lazy t = ∅.
Proof.
  intros Hr Ha. rewrite (reachable_read a self Hr).
  destruct Ha as [[-> ->]|[[-> ->]|[-> ->]]]; simpl value_of;
    unfold quote_tweet_of, retweet_of, embedded_tweet_of.
  - apply (embedding_result get_quote_tweet (fun _ nate => _)).
  - apply (embedding_result get_retweet (fun _ nate => _)).
  - apply (embedding_result get_embedded_tweet (fun payload nate => _)).
Qed.

Lemma embedded_is_new_tweet_witness :
  let self := built true (embedding bare_payload) in
  (OTweet (built true bare_payload) = OVal VNone
   /\ @get_quote_tweet sample_collaborators
        (original_format self) (entries self) = Ok None)
  \/ exists payload fmt t,
       @get_quote_tweet sample_collaborators
         (original_format self) (entries self) = Ok (Some payload)
       /\ @check_tweet sample_collaborators payload false = Ok fmt
       /\ OTweet (built true bare_payload) = OTweet t
       /\ @reachable sample_collaborators t
       /\ original_format t = Some fmt
       /\ entries t = payload
       /\ lazy t = ∅.
Proof.
  exact (@embedded_is_new_tweet sample_collaborators
           (built true (embedding bare_payload)) P_quote_tweet
           (@get_quote_tweet sample_collaborators)
           (OTweet (built true bare_payload))
           (@reach_new sample_collaborators (embedding bare_payload) false _
              eq_refl)
           (or_introl (conj eq_refl eq_refl))
           ltac:(vm_compute; reflexivity)).
Defined.

(** ** Reading in any order *)

(** X11.  What a property returns does not depend on what was read
    before: after reading any properties, in any order, a property
    returns, or raises, what it does on the tweet as built. *)
Theorem reads_do_not_interfere `{!Collaborators}
    (tweet_dict : dict) (validate : bool) (t : Tweet)
    (l : list accessor) (a : accessor) :
  Tweet_new tweet_dict validate = Ok t ->
  fst (read a (read_all l t)) = fst (read a t).
Proof.
  intros Hnew. pose proof (reach_new _ _ _ Hnew) as Hr.
  rewrite (reachable_read a _ (read_all_reachable l t Hr)),
    (reachable_read a t Hr).
  destruct (read_all_frame l t Hr) as [-> ->]. reflexivity.
Qed.

Lemma reads_do_not_interfere_witness :
  let t := built true (original_payload "some tweet text") in
  fst (@read sample_collaborators P_created_at_string
         (@read_all sample_collaborators
            [P_created_at_datetime; P_quote_tweet; P_id; P_poll_options] t))
  = fst (@read sample_collaborators P_created_at_string t).
Proof.
  exact (@reads_do_not_interfere sample_collaborators
           (original_payload "some tweet text") false
           (built true (original_payload "some tweet text"))
           [P_created_at_datetime; P_quote_tweet; P_id; P_poll_options]
           P_created_at_string eq_refl).
Defined.

(** X12.  The format of a tweet is decided once: it is what the
    classifier returned to the constructor, and no read changes it. *)
Theorem format_is_fixed `{!Collaborators}
    (tweet_dict : dict) (validate : bool) (t : Tweet) (l : list accessor) :
  Tweet_new tweet_dict validate = Ok t ->
  exists fmt,
    check_tweet tweet_dict validate = Ok fmt
    /\ original_format (read_all l t) = Some fmt.
Proof.
  intros Hnew. pose proof (reach_new _ _ _ Hnew) as Hr.
  destruct (read_all_frame l t Hr) as [Hf _].
  apply Tweet_new_inv in Hnew as (fmt & Hcheck & ->).
  exists fmt. rewrite Hf. auto.
Qed.

Lemma format_is_fixed_witness :
  exists fmt,
    @check_tweet sample_collaborators activity_payload false = Ok fmt
    /\ original_format
         (@read_all sample_collaborators
            [P_id; P_tweet_type; P_poll_options; P_created_at_string]
            (built false activity_payload))
       = Some fmt.
Proof.
  exact (@format_is_fixed sample_collaborators activity_payload false
           (built false activity_payload)
           [P_id; P_tweet_type; P_poll_options; P_created_at_string]
           eq_refl).
Defined.

(** ** The text of the user, whatever the getters *)

(** X13.  For a retweet [user_entered_text] is the empty string
    without [get_full_text] being consulted, so also when that getter
    would raise; for any other type it returns what [get_full_text]
    returns and raises what it raises. *)
Theorem user_entered_text_guard `{!Collaborators} (self : Tweet) :
  reachable self ->
  (fst (Tweet_tweet_type self) = Ok (OVal (VStr "retweet")) ->
   fst (Tweet_user_entered_text self) = Ok (OVal (VStr "")))
  /\ (forall ty, fst (Tweet_tweet_type self) = Ok ty ->
        eq_str ty "retweet" = false ->
        fst (Tweet_user_entered_text self)
        = get_full_text (original_format self) (entries self)).
Proof.
  intros Hr. rewrite (Tweet_user_entered_text_value self Hr),
    (Tweet_tweet_type_value self Hr).
  unfold user_entered_text_of. split.
  - intros ->. reflexivity.
  - intros ty -> Hty. simpl. rewrite Hty. reflexivity.
Qed.

Lemma user_entered_text_guard_witness :
  @get_full_text sample_collaborators (Some true) textless_retweet
  = Err (KeyError "text")
  /\ fst (@Tweet_user_entered_text sample_collaborators
            (built true textless_retweet))
     = Ok (OVal (VStr ""))
  /\ fst (@Tweet_user_entered_text sample_collaborators
            (built true textless_payload))
     = Err (KeyError "text").
Proof.
  split; [vm_compute; reflexivity|]. split.
  - exact (proj1 (@user_entered_text_guard sample_collaborators
                    (built true textless_retweet)
                    (@reach_new sample_collaborators textless_retweet false _
                       eq_refl)) eq_refl).
  - exact (proj2 (@user_entered_text_guard sample_collaborators
                    (built true textless_payload)
                    (@reach_new sample_collaborators textless_payload false _
                       eq_refl)) (OVal (VStr "tweet")) eq_refl eq_refl).
Defined.

(** ** The constructor, further *)

(** X14.  The constructor returns a tweet exactly when the classifier
    returns a format, and then the tweet has that format, the entries of
    the payload and nothing stored; an exception of the classifier, of
    whatever kind, is the exception of the constructor, and [__init__]
    has changed nothing. *)
Theorem constructor_follows_classifier `{!Collaborators}
    (tweet_dict : dict) (validate : bool) :
  (forall t,
     Tweet_new tweet_dict validate = Ok t
     <-> exists fmt,
           check_tweet tweet_dict validate = Ok fmt
           /\ original_format t = Some fmt
           /\ entries t = tweet_dict
           /\ lazy t = ∅)
  /\ (forall e,
        check_tweet tweet_dict validate = Err e
        <-> Tweet_new tweet_dict validate = Err e)
  /\ (forall e,
        check_tweet tweet_dict validate = Err e ->
        Tweet___init__ tweet_dict validate blank = (Err e, blank)).
Proof.
  split; [|split].
  - intros t. split.
    + intros Hnew. apply Tweet_new_inv in Hnew as (fmt & Hcheck & ->).
      exists fmt. repeat split; try assumption.
      simpl. apply (right_id_L ∅ (∪)).
    + intros (fmt & Hcheck & Hf & He & Hl).
      rewrite (Tweet_new_ok _ _ _ Hcheck). destruct t as [f d c].
      simpl in Hf, He, Hl. subst. unfold built.
      rewrite (right_id_L ∅ (∪)). reflexivity.
  - intros e. split.
    + apply Tweet_new_err.
    + destruct (check_tweet tweet_dict validate) as [fmt|e'] eqn:Hcheck.
      * rewrite (Tweet_new_ok _ _ _ Hcheck). discriminate.
      * rewrite (Tweet_new_err _ _ _ Hcheck). congruence.
  - apply Tweet___init___err.
Qed.

Lemma constructor_follows_classifier_witness :
  @Tweet_new indexing_collaborators bare_payload false
  = Err (KeyError "id_str")
  /\ @Tweet___init__ indexing_collaborators bare_payload false blank
     = (Err (KeyError "id_str"), blank).
Proof.
  destruct (@constructor_follows_classifier indexing_collaborators
              bare_payload false) as (_ & Hraise & Hinit).
  exact (conj (proj1 (Hraise _) eq_refl) (Hinit _ eq_refl)).
Defined.
